(** * CMC pump registry (app.py): record store, rule engine, dispatcher

    A shallow embedding of the business rules of [app.py]: expiry
    derivation ([parse_date_from_id], [compute_expiry], [load_db]),
    persistence ([save_db]), the warning scan ([check_expirations],
    [render_warnings]), the mail dispatcher ([send_email]) and the two
    mutation paths (the "Save Changes" handler of [render_editable_pump]
    and the "Add Pump" form).

    Conventions.
    - Python [str] is [string]; the case and whitespace functions are the
      ASCII ones.
    - A cell of an object column is [NA] (NaN / pd.NA) or a string.
    - [datetime] and [pandas.Timestamp] are one record: a calendar date and
      a time of day; they are compared field by field, as Python does.
    - The string parser behind [pandas.to_datetime(..., errors="coerce")],
      [int(...)] and [strftime] are library code: they are parameters of
      the development.  [slash_date] is a reference parser for numeric
      day/month/year strings, used for the concrete scenarios. *)

From Stdlib Require Import ZArith List Bool Lia Ascii String.
Import ListNotations.

Open Scope string_scope.
Open Scope Z_scope.

(* ------------------------------------------------------------------ *)
(** ** Python strings *)

Module PyStr.

(** [str.isspace] on one ASCII character: TAB..CR, FS..US and space. *)
Definition isspace (c : ascii) : bool :=
  let n := Z.of_N (N_of_ascii c) in
  ((9 <=? n) && (n <=? 13)) || ((28 <=? n) && (n <=? 31)) || (n =? 32).

Definition is_lower (c : ascii) : bool :=
  let n := Z.of_N (N_of_ascii c) in (97 <=? n) && (n <=? 122).

Definition is_upper (c : ascii) : bool :=
  let n := Z.of_N (N_of_ascii c) in (65 <=? n) && (n <=? 90).

Definition upper_char (c : ascii) : ascii :=
  if is_lower c then ascii_of_N (N_of_ascii c - 32) else c.

Definition lower_char (c : ascii) : ascii :=
  if is_upper c then ascii_of_N (N_of_ascii c + 32) else c.

Fixpoint map_chars (f : ascii -> ascii) (s : string) : string :=
  match s with
  | EmptyString => EmptyString
  | String c s' => String (f c) (map_chars f s')
  end.

(** [s.upper()] and [s.lower()]. *)
Definition upper : string -> string := map_chars upper_char.
Definition lower : string -> string := map_chars lower_char.

Fixpoint lstrip (s : string) : string :=
  match s with
  | EmptyString => EmptyString
  | String c s' => if isspace c then lstrip s' else s
  end.

Fixpoint rstrip (s : string) : string :=
  match s with
  | EmptyString => EmptyString
  | String c s' =>
      let r := rstrip s' in
      if isspace c && (r =? "")%string then EmptyString else String c r
  end.

(** [s.strip()]. *)
Definition strip (s : string) : string := rstrip (lstrip s).

Fixpoint startswith (p s : string) : bool :=
  match p, s with
  | EmptyString, _ => true
  | String a p', String b s' => Ascii.eqb a b && startswith p' s'
  | String _ _, EmptyString => false
  end.

(** [p in s]. *)
Fixpoint contains (p s : string) : bool :=
  startswith p s ||
  match s with
  | EmptyString => false
  | String _ s' => contains p s'
  end.

(** [df[col].str.contains(p, case=False)] on one string, for a pattern of
    literal characters: a case-insensitive substring search. *)
Definition contains_nocase (p s : string) : bool :=
  contains (upper p) (upper s).

Definition push_head (c : ascii) (parts : list string) : list string :=
  match parts with
  | [] => [String c EmptyString]
  | p :: ps => String c p :: ps
  end.

(** Splitting at the non-overlapping occurrences, leftmost first, of
    [x-y] where [sep x] and [sep y]: with [sep := isspace] this is
    [re.split(r"\s-\s", s)]. *)
Fixpoint split_hyphen (sep : ascii -> bool) (s : string) : list string :=
  match s with
  | EmptyString => [EmptyString]
  | String a tl =>
      match tl with
      | String b (String c rest) =>
          if sep a && Ascii.eqb b "-" && sep c
          then EmptyString :: split_hyphen sep rest
          else push_head a (split_hyphen sep tl)
      | _ => push_head a (split_hyphen sep tl)
      end
  end.

Definition re_split_ws_hyphen_ws : string -> list string := split_hyphen isspace.

End PyStr.

(* ------------------------------------------------------------------ *)
(** ** Calendar dates, datetimes and [relativedelta] *)

Record Date := mkDate { year : Z; month : Z; day : Z }.

(** [datetime] / [pandas.Timestamp]: a date and the time of day (in the
    clock's smallest unit since midnight). *)
Record Timestamp := mkTs { ts_date : Date; ts_time : Z }.

Definition date_eqb (a b : Date) : bool :=
  (year a =? year b) && (month a =? month b) && (day a =? day b).

Definition date_ltb (a b : Date) : bool :=
  (year a <? year b) ||
  ((year a =? year b) &&
   ((month a <? month b) || ((month a =? month b) && (day a <? day b)))).

Definition date_leb (a b : Date) : bool := date_ltb a b || date_eqb a b.

Definition ts_ltb (a b : Timestamp) : bool :=
  date_ltb (ts_date a) (ts_date b) ||
  (date_eqb (ts_date a) (ts_date b) && (ts_time a <? ts_time b)).

Definition ts_leb (a b : Timestamp) : bool :=
  date_ltb (ts_date a) (ts_date b) ||
  (date_eqb (ts_date a) (ts_date b) && (ts_time a <=? ts_time b)).

(** [calendar.isleap]. *)
Definition isleap (y : Z) : bool :=
  (y mod 4 =? 0) && (negb (y mod 100 =? 0) || (y mod 400 =? 0)).

(** [calendar.monthrange(y, m)[1]]: the number of days of month [m]. *)
Definition monthrange (y m : Z) : Z :=
  match m with
  | 1 | 3 | 5 | 7 | 8 | 10 | 12 => 31
  | 4 | 6 | 9 | 11 => 30
  | 2 => if isleap y then 29 else 28
  | _ => 0
  end.

Definition valid_date (d : Date) : Prop :=
  1 <= month d <= 12 /\ 1 <= day d <= monthrange (year d) (month d).

(** [dt + relativedelta(years=ys, months=ms)] (dateutil's [__radd__]):
    the years and months are added, the month is brought back into
    1..12, and the day is clipped to the length of the resulting month;
    the time of day is kept. *)
Definition relativedelta_add (ys ms : Z) (dt : Timestamp) : Timestamp :=
  let d := ts_date dt in
  let y0 := year d + ys in
  let m0 := if ms =? 0 then month d else month d + ms in
  let y1 := if ms =? 0 then y0
            else if 12 <? m0 then y0 + 1 else if m0 <? 1 then y0 - 1 else y0 in
  let m1 := if ms =? 0 then m0
            else if 12 <? m0 then m0 - 12 else if m0 <? 1 then m0 + 12 else m0 in
  mkTs (mkDate y1 m1 (Z.min (monthrange y1 m1) (day d))) (ts_time dt).

(** [datetime.date.toordinal]: the day number of a date. *)
Definition days_before_year (y : Z) : Z :=
  let p := y - 1 in p * 365 + p / 4 - p / 100 + p / 400.

Definition days_before_month (y m : Z) : Z :=
  match m with
  | 1 => 0 | 2 => 31 | 3 => 59 | 4 => 90 | 5 => 120 | 6 => 151
  | 7 => 181 | 8 => 212 | 9 => 243 | 10 => 273 | 11 => 304 | 12 => 334
  | _ => 0
  end + (if (2 <? m) && isleap y then 1 else 0).

Definition toordinal (d : Date) : Z :=
  days_before_year (year d) + days_before_month (year d) (month d) + day d.

(* ------------------------------------------------------------------ *)
(** ** Cells *)

(** A cell of an object column. *)
Inductive Cell := NA | Str (s : string).

(** A cell of the [Expiry] column, and the result of [pd.to_datetime]. *)
Inductive DateCell := NaT | Ts (t : Timestamp) | Txt (s : string).

(** [str(val)]. *)
Definition py_str (v : Cell) : string :=
  match v with NA => "nan" | Str s => s end.

(** [pd.isna] / [pd.notna]. *)
Definition isna (v : Cell) : bool := match v with NA => true | Str _ => false end.

Definition notna (v : DateCell) : bool :=
  match v with NaT => false | _ => true end.

(** [is_empty] (app.py, line 38). *)
Definition is_empty (val : Cell) : bool :=
  if isna val then true
  else (PyStr.strip (py_str val) =? "")%string.

(** [a == b] on two cells: a missing value equals nothing. *)
Definition cell_eqb (a b : Cell) : bool :=
  match a, b with
  | Str x, Str y => (x =? y)%string
  | _, _ => false
  end.

Definition FIXED_EXPIRY_YEARS : Z := 4.

(* ------------------------------------------------------------------ *)
(** ** Rows and tables *)

(** One row of the sheet, with the columns [load_db] guarantees (the
    missing ones are backfilled there); [Year] and [Quantity Sold] are
    numeric or missing. *)
Record Row := mkRow {
  ID : Cell;
  Client : Cell;
  Model : Cell;
  Quantity_Sold : option Z;
  Serial_Number : Cell;
  Year : option Z;
  Status : Cell;
  Last_Updated : Cell;
  Expiry : DateCell;
  Patient : Cell;
  Notes : Cell
}.

Definition Table := list Row.

Definition set_Expiry (v : DateCell) (r : Row) : Row :=
  mkRow (ID r) (Client r) (Model r) (Quantity_Sold r) (Serial_Number r)
        (Year r) (Status r) (Last_Updated r) v (Patient r) (Notes r).

Definition set_Status (v : Cell) (r : Row) : Row :=
  mkRow (ID r) (Client r) (Model r) (Quantity_Sold r) (Serial_Number r)
        (Year r) v (Last_Updated r) (Expiry r) (Patient r) (Notes r).

Definition STATUS_OPTIONS : list string := ["In use"; "In stock"; "Out of use"].

Definition in_strings (s : string) (l : list string) : bool :=
  existsb (String.eqb s) l.

(** [df["Model"].str.contains("CRONO SC", case=False, na=False)] on one
    cell. *)
Definition model_is_crono (m : Cell) : bool :=
  match m with
  | NA => false
  | Str s => PyStr.contains_nocase "CRONO SC" s
  end.

(* ------------------------------------------------------------------ *)
(** ** Exceptions *)

Inductive Exn := IOError | SMTPException.

Inductive Result (A : Type) := Ok (a : A) | Raise (e : Exn).
Arguments Ok {A} a.
Arguments Raise {A} e.

(* ------------------------------------------------------------------ *)
(** ** Record store *)

(** The backing file [DB-CMC2.xlsx], the entry of [st.cache_data] for
    [load_db], and whether a write to the file succeeds. *)
Record World := mkWorld {
  file : option Table;
  cache : option Table;
  disk_ok : bool
}.

Section Store.

(** The string parser of [pd.to_datetime(s, dayfirst=b, errors="coerce")],
    [None] standing for [NaT]. *)
Variable parse_datetime : bool -> string -> option Timestamp.

(** [pd.to_datetime(v, dayfirst=b, errors="coerce")] on a scalar. *)
Definition to_datetime (dayfirst : bool) (v : DateCell) : DateCell :=
  match v with
  | NaT => NaT
  | Ts t => Ts t
  | Txt s => match parse_datetime dayfirst s with
             | Some t => Ts t
             | None => NaT
             end
  end.

(** [parse_date_from_id] (app.py, line 49). *)
Definition parse_date_from_id (id_value : Cell) : DateCell :=
  if is_empty id_value then NaT
  else
    let parts := PyStr.re_split_ws_hyphen_ws (PyStr.strip (py_str id_value)) in
    let date_candidate := PyStr.strip (last parts EmptyString) in
    let parsed := to_datetime true (Txt date_candidate) in
    if notna parsed then parsed
    else
      let parsed := to_datetime false (Txt date_candidate) in
      if notna parsed then parsed
      else NaT.

(** [ts + relativedelta(years=FIXED_EXPIRY_YEARS)] on a parsed value. *)
Definition add_expiry_years (v : DateCell) : DateCell :=
  match v with
  | Ts t => Ts (relativedelta_add FIXED_EXPIRY_YEARS 0 t)
  | _ => NaT
  end.

(** [compute_expiry] (app.py, line 136). *)
Definition compute_expiry (row : Row) : DateCell :=
  let exp := Expiry row in
  let parsed := to_datetime false exp in
  if notna parsed then parsed
  else
    let id_val := ID row in
    let id_date := parse_date_from_id id_val in
    if notna id_date then add_expiry_years id_date
    else NaT.

(** The status synonyms of [load_db] ([lower_map.get(s.lower(), s)]). *)
Definition lower_map_get (s : string) : string :=
  let k := PyStr.lower s in
  if (k =? "in maintenance")%string then "In stock"
  else if (k =? "not used yet")%string then "In stock"
  else if (k =? "disuse")%string then "Out of use"
  else if (k =? "out of order")%string then "Out of use"
  else if (k =? "in use")%string then "In use"
  else s.

Definition normalize_status (c : Cell) : Cell :=
  let filled := match c with NA => "In stock" | Str s => s end in
  let mapped := lower_map_get (PyStr.strip filled) in
  Str (if in_strings mapped STATUS_OPTIONS then mapped else "In stock").

(** The body of [load_db] on the rows read from the file: the status is
    normalised, then [df["Expiry"] = df.apply(compute_expiry, axis=1)]. *)
Definition load_rows (raw : Table) : Table :=
  map (fun r => let r1 := set_Status (normalize_status (Status r)) r in
                set_Expiry (compute_expiry r1) r1) raw.

(** [df.to_excel(EXCEL_PATH, index=False)]. *)
Definition to_excel (df : Table) (w : World) : Result World :=
  if disk_ok w then Ok (mkWorld (Some df) (cache w) (disk_ok w))
  else Raise IOError.

(** [load_db.clear()]: Streamlit drops the cached value. *)
Definition load_db_clear (w : World) : Result World :=
  Ok (mkWorld (file w) None (disk_ok w)).

(** [load_db] (app.py, line 98) behind [st.cache_data]: a cached table
    is served as it is; otherwise the file is created when absent, read
    and normalised, and the result is cached.  The entry leaves the
    cache through [load_db.clear()]; its expiry after 60 seconds is not
    modelled. *)
Definition load_db (w : World) : Result (Table * World) :=
  match cache w with
  | Some df => Ok (df, w)
  | None =>
      let created :=
        match file w with
        | Some _ => Ok w
        | None => to_excel [] w
        end in
      match created with
      | Raise e => Raise e
      | Ok w1 =>
          let df := load_rows (match file w1 with Some t => t | None => [] end) in
          Ok (df, mkWorld (file w1) (Some df) (disk_ok w1))
      end
  end.

(** [save_db] (app.py, line 153). *)
Definition save_db (df : Table) (w : World) : Result (bool * World) :=
  match to_excel df w with
  | Raise _ => Ok (false, w)
  | Ok w1 =>
      match load_db_clear w1 with
      | Raise _ => Ok (true, w1)
      | Ok w2 => Ok (true, w2)
      end
  end.

(** The admin action "Recompute expiries from ID dates" (app.py, line
    438) on one row. *)
Definition recompute_expiry_from_id (r : Row) : Row :=
  set_Expiry
    (if notna (parse_date_from_id (ID r))
     then add_expiry_years (parse_date_from_id (ID r))
     else NaT) r.

End Store.

(* ------------------------------------------------------------------ *)
(** ** Actors and outgoing mail *)

(** The entry of [config["credentials"]["usernames"]] of the acting user;
    a field is [None] when its key is absent. *)
Record User := mkUser {
  role : option string;
  client : option string;
  email : option string;
  username : option string
}.

(** [current_user.get("role") == "admin"]. *)
Definition is_admin (u : User) : bool :=
  match role u with
  | Some r => (r =? "admin")%string
  | None => false
  end.

(** [row.get("Client") == current_user.get("client")]. *)
Definition client_matches (r : Row) (u : User) : bool :=
  match Client r, client u with
  | Str a, Some b => (a =? b)%string
  | _, _ => false
  end.

(** The guard of every notification of the scan. *)
Definition visible (u : User) (r : Row) : bool :=
  is_admin u || client_matches r u.

(** [current_user.get("email", current_user.get("username",
    "admin@localhost"))]. *)
Definition recipient (u : User) : string :=
  match email u with
  | Some e => e
  | None => match username u with
            | Some n => n
            | None => "admin@localhost"
            end
  end.

(** The message bodies: one constructor per f-string template, holding
    the interpolated values. *)
Inductive Body :=
| MissingExpiryBody (serial model : string)
| FlaggedBody (serial model status : string) (exp : Date) (client notes : string)
| NoPatientBody (serial : string)
| SinglePumpBody (patient : string) (count : nat) (sample : Row)
| PatientChangeBody (serial : string).

(** One call [send_email(to_email, subject, body)]. *)
Record EmailCall := mkEmail {
  to_email : string;
  subject : string;
  body : Body
}.

(* ------------------------------------------------------------------ *)
(** ** Rule engine: the warning scan *)

Definition SUBJECT_EXPIRED : string := "Pump expired and still in use/stock".
Definition SUBJECT_1M : string := "Pump expiring within 1 month".
Definition SUBJECT_6M : string := "Pump expiring within 6 months".

(** The [subject] chosen by lines 205-211 of [check_expirations]. *)
Definition expiry_subject (now exp : Timestamp) : option string :=
  let near_6m := relativedelta_add 0 6 now in
  let near_1m := relativedelta_add 0 1 now in
  if date_leb (ts_date exp) (ts_date now) then Some SUBJECT_EXPIRED
  else if ts_ltb now exp && ts_leb exp near_1m then Some SUBJECT_1M
  else if ts_ltb now exp && ts_leb exp near_6m then Some SUBJECT_6M
  else None.

(** Insertion of a group key, keys kept sorted and distinct. *)
Fixpoint insert_key (k : string) (l : list string) : list string :=
  match l with
  | [] => [k]
  | x :: l' =>
      match String.compare k x with
      | Lt => k :: l
      | Eq => l
      | Gt => x :: insert_key k l'
      end
  end.

(** The keys of [cronos.groupby("Patient")]: the distinct non-missing
    patient values, sorted. *)
Fixpoint groupby_Patient_keys (cronos : Table) : list string :=
  match cronos with
  | [] => []
  | r :: rest =>
      match Patient r with
      | Str p => insert_key p (groupby_Patient_keys rest)
      | NA => groupby_Patient_keys rest
      end
  end.

(** [cronos[cronos["Patient"] == patient]]. *)
Definition rows_of_patient (cronos : Table) (patient : string) : Table :=
  filter (fun r => cell_eqb (Patient r) (Str patient)) cronos.

Section Scan.

Variable parse_datetime : bool -> string -> option Timestamp.

(** One iteration of the first loop of [check_expirations] (lines
    193-218): the calls to [send_email] it makes. *)
Definition check_row (now : Timestamp) (current_user : User) (row : Row)
  : list EmailCall :=
  match to_datetime parse_datetime false (Expiry row) with
  | Ts exp =>
      if negb (in_strings (PyStr.strip (py_str (Status row))) ["In use"; "In stock"])
      then []
      else
        match expiry_subject now exp with
        | Some subject =>
            if visible current_user row
            then [mkEmail (recipient current_user)
                    ("[Alert] " ++ py_str (ID row) ++ " - " ++ subject)
                    (FlaggedBody (py_str (Serial_Number row)) (py_str (Model row))
                       (py_str (Status row)) (ts_date exp)
                       (py_str (Client row)) (py_str (Notes row)))]
            else []
        | None => []
        end
  | _ =>
      if (PyStr.lower (PyStr.strip (py_str (Status row))) =? "in use")%string
      then
        if visible current_user row
        then [mkEmail (recipient current_user)
                ("[Alert] Pump " ++ py_str (Serial_Number row) ++ " — Missing expiry")
                (MissingExpiryBody (py_str (Serial_Number row)) (py_str (Model row)))]
        else []
      else []
  end.

(** The second loop (lines 221-227): CRONO SC rows without a patient. *)
Definition check_no_patient (current_user : User) (r : Row) : list EmailCall :=
  if is_empty (Patient r)
  then
    if visible current_user r
    then [mkEmail (recipient current_user)
            ("[Alert] CRONO SC " ++ py_str (Serial_Number r) ++ " — no patient assigned")
            (NoPatientBody (py_str (Serial_Number r)))]
    else []
  else [].

(** The third loop (lines 228-246): patients with a single CRONO SC
    pump. *)
Definition check_single_pump (current_user : User) (cronos : Table)
  (patient : string) : list EmailCall :=
  if is_empty (Str patient) then []
  else
    match rows_of_patient cronos patient with
    | [sample] =>
        if visible current_user sample
        then [mkEmail (recipient current_user)
                ("[Alert] Patient " ++ patient ++ " has only 1 CRONO SC pump")
                (SinglePumpBody patient 1 sample)]
        else []
    | _ => []
    end.

(** [check_expirations] (app.py, line 189): every call to [send_email]
    it makes, in order. *)
Definition check_expirations (now : Timestamp) (df : Table) (current_user : User)
  : list EmailCall :=
  let cronos := filter (fun r => model_is_crono (Model r)) df in
  flat_map (check_row now current_user) df
  ++ flat_map (check_no_patient current_user) cronos
  ++ flat_map (check_single_pump current_user cronos) (groupby_Patient_keys cronos).

(** The rows of the warnings panel of [render_warnings] (lines 346-366),
    each with its [WarningType], for the filtered table [dfw]. *)
Definition cond_expiry_soon (now : Timestamp) (r : Row) : bool :=
  match to_datetime parse_datetime false (Expiry r) with
  | Ts exp => ts_leb exp (relativedelta_add 0 6 now)
              && in_strings (py_str (Status r)) ["In use"; "In stock"]
  | _ => false
  end.

Definition cond_missing_patient (r : Row) : bool :=
  model_is_crono (Model r) &&
  (PyStr.strip (match Patient r with NA => "" | Str s => s end) =? "")%string.

Definition panel_row (now : Timestamp) (r : Row) : list (Row * string) :=
  if cond_missing_patient r then [(r, "Missing patient")]
  else if cond_expiry_soon now r then [(r, "Expiry")]
  else [].

Definition panel_single (cronos : Table) (patient : string) : list (Row * string) :=
  if is_empty (Str patient) then []
  else
    match rows_of_patient cronos patient with
    | [sample] => [(sample, "Patient " ++ patient ++ " has only 1 CRONO SC pump")]
    | _ => []
    end.

Definition render_warnings (now : Timestamp) (dfw : Table) : list (Row * string) :=
  let cronos := filter (fun r => model_is_crono (Model r)) dfw in
  flat_map (panel_row now) dfw
  ++ flat_map (panel_single cronos) (groupby_Patient_keys cronos).

End Scan.

(* ------------------------------------------------------------------ *)
(** ** Notification dispatcher *)

Module Smtp.

(** The two transports of [send_email]: [smtplib.SMTP_SSL] on port 465
    and [smtplib.SMTP] on port 587. *)
Inductive Transport := SMTP_SSL_465 | SMTP_587.

(** The operations on a connection: opening it (the constructor of the
    [with] statement), [starttls], [login] and [send_message]. *)
Inductive Op := Connect | StartTLS | Login | SendMessage.

(** The network: which operation succeeds on which transport. *)
Definition Net := Transport -> Op -> bool.

(** The operations attempted so far, latest last. *)
Definition Log := list (Transport * Op).

(** Computations that log SMTP operations and may raise. *)
Definition M (A : Type) : Type := Log -> Result A * Log.

Definition ret {A} (a : A) : M A := fun l => (Ok a, l).

Definition bind {A B} (x : M A) (k : A -> M B) : M B :=
  fun l => match x l with
           | (Ok a, l') => k a l'
           | (Raise e, l') => (Raise e, l')
           end.

(** [try: body except Exception: handler]. *)
Definition try_except {A} (body handler : M A) : M A :=
  fun l => match body l with
           | (Ok a, l') => (Ok a, l')
           | (Raise _, l') => handler l'
           end.

Definition op (net : Net) (t : Transport) (o : Op) : M unit :=
  fun l => (if net t o then Ok tt else Raise SMTPException, (l ++ [(t, o)])%list).

Definition run {A} (x : M A) : Result A * Log := x [].

End Smtp.

Notation "x ;; k" := (Smtp.bind x (fun _ => k))
  (at level 61, right associativity).

(** [st.secrets]. *)
Record Secrets := mkSecrets {
  email_user : option string;
  email_pass : option string
}.

(** Python truthiness of [st.secrets.get(key)]. *)
Definition truthy (v : option string) : bool :=
  match v with
  | Some s => negb (s =? "")%string
  | None => false
  end.

(** [send_email] (app.py, line 68). *)
Definition send_email (secrets : Secrets) (net : Smtp.Net) (call : EmailCall)
  : Smtp.M bool :=
  let EMAIL := email_user secrets in
  let PASS := email_pass secrets in
  if negb (truthy EMAIL) || negb (truthy PASS) then Smtp.ret false
  else
    Smtp.try_except
      (Smtp.op net Smtp.SMTP_SSL_465 Smtp.Connect ;;
       Smtp.op net Smtp.SMTP_SSL_465 Smtp.Login ;;
       Smtp.op net Smtp.SMTP_SSL_465 Smtp.SendMessage ;;
       Smtp.ret true)
      (Smtp.try_except
         (Smtp.op net Smtp.SMTP_587 Smtp.Connect ;;
          Smtp.op net Smtp.SMTP_587 Smtp.StartTLS ;;
          Smtp.op net Smtp.SMTP_587 Smtp.Login ;;
          Smtp.op net Smtp.SMTP_587 Smtp.SendMessage ;;
          Smtp.ret true)
         (Smtp.ret false)).

(* ------------------------------------------------------------------ *)
(** ** Mutations: "Save Changes" and "Add Pump" *)

(** How a mutation ends: one of the [st.error] exits, or the result of
    [save_db]. *)
Inductive Outcome :=
| IdModelRequired                           (* "Pump ID and Model are required." *)
| PatientRequired                           (* "... must be assigned to a patient" *)
| PatientLocked                             (* "Patient cannot be changed once assigned." *)
| PatientCapExceeded (existing_count : nat) (* "... Max 2 allowed." *)
| Saved                                     (* save_db returned True *)
| SaveFailed.                               (* save_db returned False *)

(** What a mutation leaves behind: the table [df] of the script run, the
    store, and the calls to [send_email] it made. *)
Record Effect := mkEffect {
  outcome : Outcome;
  df_after : Table;
  world_after : World;
  emails : list EmailCall
}.

(** [safe_str] (app.py, line 255). *)
Definition safe_str (val : Cell) : string :=
  if isna val then "" else py_str val.

(** [df[(df["Model"].str.contains("CRONO SC", case=False, na=False)) &
    (df["Patient"] == p)].shape[0]] (lines 311 and 527). *)
Definition existing_count (df : Table) (p : string) : nat :=
  List.length
    (filter (fun r => model_is_crono (Model r) && cell_eqb (Patient r) (Str p)) df).

(** [save_db(df)] at the end of a mutation. *)
Definition commit (df : Table) (w : World) (sent : list EmailCall) : Effect :=
  match save_db df w with
  | Ok (true, w') => mkEffect Saved df w' sent
  | Ok (false, w') => mkEffect SaveFailed df w' sent
  | Raise _ => mkEffect SaveFailed df w sent
  end.

Module Edit.

(** The widget values of one expander of [render_editable_pump], named
    as in the source, and [st.session_state.get(f"patient_{idx}")]. *)
Record Form := mkForm {
  m : string;
  y : string;
  s : string;
  c : string;
  n : string;
  e : Date;
  q_sold : Z;
  serial : string;
  session_patient : option string
}.

End Edit.

Module Add.

(** The widget values of the form [add_pump_form]. *)
Record Form := mkForm {
  new_id : string;
  new_model : string;
  new_year : Z;
  new_status : string;
  new_notes : string;
  new_qty : Z;
  new_serial : string;
  new_expiry : Date;
  patient_input : string
}.

End Add.

Section Mutations.

(** [int(s)] on a string, [None] when it raises. *)
Variable py_int : string -> option Z.

(** [datetime.strftime("%Y-%m-%d %H:%M:%S")]. *)
Variable strftime : Timestamp -> string.

(** [safe_int(val, default)] (app.py, line 259) on a text input. *)
Definition safe_int (val : string) (default : option Z) : option Z :=
  if (val =? "")%string then default
  else match py_int val with
       | Some z => Some z
       | None => default
       end.

(** ["CRONO SC" in safe_str(m).upper()]. *)
Definition is_crono_text (model : string) : bool :=
  PyStr.contains "CRONO SC" (PyStr.upper model).

(** [original_patient_str if (not is_empty(original_patient)) else
    st.session_state.get(f"patient_{idx}", "").strip()] (lines 301 and
    330). *)
Definition assigned_patient (row : Row) (f : Edit.Form) : string :=
  if negb (is_empty (Patient row)) then safe_str (Patient row)
  else PyStr.strip (match Edit.session_patient f with
                    | Some v => v
                    | None => ""
                    end).

(** The writes [df.loc[df["ID"] == row["ID"], col] = val] of lines
    316-331 on one row [r] of [df]. *)
Definition apply_update (row : Row) (f : Edit.Form) (now : Timestamp) (r : Row)
  : Row :=
  if cell_eqb (ID r) (ID row)
  then mkRow (ID r)
             (Str (Edit.c f))
             (Str (Edit.m f))
             (Some (Edit.q_sold f))
             (Str (Edit.serial f))
             (safe_int (Edit.y f) (Year row))
             (Str (Edit.s f))
             (Str (strftime now))
             (Ts (mkTs (Edit.e f) 0))
             (if is_crono_text (Edit.m f)
              then Str (assigned_patient row f)
              else Patient r)
             (Str (Edit.n f))
  else r.

(** The "Save Changes" handler of [render_editable_pump] (lines
    299-338). *)
Definition save_changes (row : Row) (df : Table) (f : Edit.Form)
  (now : Timestamp) (current_user_email : string) (w : World) : Effect :=
  let is_crono := is_crono_text (Edit.m f) in
  let original_patient := Patient row in
  let original_patient_str := safe_str original_patient in
  let assigned := assigned_patient row f in
  let proceed := commit (map (apply_update row f now) df) w [] in
  if is_crono then
    if is_empty original_patient && is_empty (Str assigned)
    then mkEffect PatientRequired df w []
    else if negb (is_empty original_patient)
            && negb (assigned =? original_patient_str)%string
    then mkEffect PatientLocked df w
           [mkEmail current_user_email
              ("[Warning] Attempted patient change on "
                 ++ safe_str (Serial_Number row))
              (PatientChangeBody (safe_str (Serial_Number row)))]
    else if (2 <=? existing_count df assigned)%nat
            && negb (assigned =? original_patient_str)%string
    then mkEffect (PatientCapExceeded (existing_count df assigned)) df w []
    else proceed
  else proceed.

(** The patient of a new pump: [""] unless the model is CRONO SC (line
    517). *)
Definition new_patient (f : Add.Form) : string :=
  if negb (is_crono_text (Add.new_model f)) then "" else Add.patient_input f.

Definition new_row (f : Add.Form) (user_client : option string)
  (now : Timestamp) (patient : Cell) : Row :=
  mkRow (Str (Add.new_id f))
        (match user_client with Some cl => Str cl | None => NA end)
        (Str (Add.new_model f))
        (Some (Add.new_qty f))
        (Str (Add.new_serial f))
        (Some (Add.new_year f))
        (Str (Add.new_status f))
        (Str (strftime now))
        (Ts (mkTs (Add.new_expiry f) 0))
        patient
        (Str (Add.new_notes f)).

(** The submit handler of [add_pump_form] (lines 519-575). *)
Definition add_pump (df : Table) (f : Add.Form) (user_client : option string)
  (now : Timestamp) (w : World) : Effect :=
  if (PyStr.strip (Add.new_id f) =? "")%string
     || (PyStr.strip (Add.new_model f) =? "")%string
  then mkEffect IdModelRequired df w []
  else if is_crono_text (Add.new_model f) then
    if is_empty (Str (new_patient f))
    then mkEffect PatientRequired df w []
    else if (2 <=? existing_count df (new_patient f))%nat
    then mkEffect (PatientCapExceeded (existing_count df (new_patient f))) df w []
    else commit (df ++ [new_row f user_client now (Str (new_patient f))])%list w []
  else commit (df ++ [new_row f user_client now NA])%list w [].

End Mutations.

(* ------------------------------------------------------------------ *)
(** ** A reference date parser *)

Module SlashDate.

Definition digit_val (ch : ascii) : option Z :=
  let k := Z.of_N (N_of_ascii ch) in
  if (48 <=? k) && (k <=? 57) then Some (k - 48) else None.

Fixpoint number_from (acc : Z) (txt : string) : option Z :=
  match txt with
  | EmptyString => Some acc
  | String ch rest =>
      match digit_val ch with
      | Some v => number_from (10 * acc + v) rest
      | None => None
      end
  end.

(** A non-empty run of at most [width] decimal digits. *)
Definition number (width : nat) (txt : string) : option Z :=
  if (String.length txt =? 0)%nat || (width <? String.length txt)%nat then None
  else number_from 0 txt.

Fixpoint fields (txt : string) : list string :=
  match txt with
  | EmptyString => [EmptyString]
  | String ch rest =>
      if Ascii.eqb ch "/" then EmptyString :: fields rest
      else PyStr.push_head ch (fields rest)
  end.

Definition calendar_date (yv mv dv : Z) : bool :=
  (1 <=? mv) && (mv <=? 12) && (1 <=? dv) && (dv <=? monthrange yv mv).

(** Numeric dates [a/b/yyyy] at midnight: [a] is the day when
    [dayfirst], the month otherwise; anything else does not parse. *)
Definition parse (dayfirst : bool) (txt : string) : option Timestamp :=
  match fields txt with
  | [fa; fb; fy] =>
      match number 2 fa, number 2 fb, number 4 fy with
      | Some a, Some b, Some yv =>
          let dv := if dayfirst then a else b in
          let mv := if dayfirst then b else a in
          if (String.length fy =? 4)%nat && calendar_date yv mv dv
          then Some (mkTs (mkDate yv mv dv) 0)
          else None
      | _, _, _ => None
      end
  | _ => None
  end.

End SlashDate.

Definition slash_date : bool -> string -> option Timestamp := SlashDate.parse.

(* ------------------------------------------------------------------ *)
(** ** The expiry rule in the words of the specification *)

(** The trailing segment of an identifier split at [x-y], [sep x] and
    [sep y]; a blank or missing identifier has none. *)
Definition spec_trailing_segment (sep : ascii -> bool) (id : Cell)
  : option string :=
  if is_empty id then None
  else Some (PyStr.strip
               (last (PyStr.split_hyphen sep (PyStr.strip (py_str id)))
                     EmptyString)).

(** Explicit value if it parses; else the date of the trailing segment
    (day-first preferred, month-first otherwise) plus four years; else
    unset. *)
Definition spec_expiry (sep : ascii -> bool)
  (parse_datetime : bool -> string -> option Timestamp) (row : Row) : DateCell :=
  match to_datetime parse_datetime false (Expiry row) with
  | Ts t => Ts t
  | _ =>
      match spec_trailing_segment sep (ID row) with
      | None => NaT
      | Some seg =>
          match parse_datetime true seg with
          | Some D => Ts (relativedelta_add 4 0 D)
          | None =>
              match parse_datetime false seg with
              | Some D => Ts (relativedelta_add 4 0 D)
              | None => NaT
              end
          end
      end
  end.

(** The separator as the specification writes it: a hyphen between two
    spaces. *)
Definition is_space_char (ch : ascii) : bool := Ascii.eqb ch " ".

Definition blank_row : Row :=
  mkRow NA NA NA None NA None NA NA NaT NA NA.

Definition set_ID (v : Cell) (r : Row) : Row :=
  mkRow v (Client r) (Model r) (Quantity_Sold r) (Serial_Number r)
        (Year r) (Status r) (Last_Updated r) (Expiry r) (Patient r) (Notes r).

Definition midnight (yv mv dv : Z) : Timestamp := mkTs (mkDate yv mv dv) 0.

(** The dispatcher's vocabulary: configured credentials, a successful
    attempt on each transport, and the operations of an attempt. *)
Definition configured (secrets : Secrets) : bool :=
  truthy (email_user secrets) && truthy (email_pass secrets).

Definition primary_ok (net : Smtp.Net) : bool :=
  net Smtp.SMTP_SSL_465 Smtp.Connect && net Smtp.SMTP_SSL_465 Smtp.Login
  && net Smtp.SMTP_SSL_465 Smtp.SendMessage.

Definition fallback_ok (net : Smtp.Net) : bool :=
  net Smtp.SMTP_587 Smtp.Connect && net Smtp.SMTP_587 Smtp.StartTLS
  && net Smtp.SMTP_587 Smtp.Login && net Smtp.SMTP_587 Smtp.SendMessage.

Definition primary_ops : list Smtp.Op :=
  [Smtp.Connect; Smtp.Login; Smtp.SendMessage].

Definition fallback_ops : list Smtp.Op :=
  [Smtp.Connect; Smtp.StartTLS; Smtp.Login; Smtp.SendMessage].

(** The first [k] operations of an attempt on transport [t]. *)
Definition attempt (t : Smtp.Transport) (ops : list Smtp.Op) (k : nat) : Smtp.Log :=
  map (pair t) (firstn k ops).


(* ------------------------------------------------------------------ *)
(** ** The warning tiers in the words of the specification *)

(** Most urgent tier first, "expired" meaning that the calendar date of
    the expiry is today or earlier. *)
Definition tier_by_date (now exp : Timestamp) : string :=
  if date_leb (ts_date exp) (ts_date now) then SUBJECT_EXPIRED
  else if ts_leb exp (relativedelta_add 0 1 now) then SUBJECT_1M
  else SUBJECT_6M.

(** Most urgent tier first, "expired" meaning [expiry <= now] on the
    clock. *)
Definition tier_by_instant (now exp : Timestamp) : string :=
  if ts_leb exp now then SUBJECT_EXPIRED
  else if ts_leb exp (relativedelta_add 0 1 now) then SUBJECT_1M
  else SUBJECT_6M.

(** The notification of an expiry tier for a row (lines 213-216). *)
Definition flagged_email (current_user : User) (row : Row) (exp : Timestamp)
  (tier : string) : EmailCall :=
  mkEmail (recipient current_user)
    ("[Alert] " ++ py_str (ID row) ++ " - " ++ tier)
    (FlaggedBody (py_str (Serial_Number row)) (py_str (Model row))
       (py_str (Status row)) (ts_date exp)
       (py_str (Client row)) (py_str (Notes row))).

(** The notification of a missing expiry for a row (lines 199-201). *)
Definition missing_expiry_email (current_user : User) (row : Row) : EmailCall :=
  mkEmail (recipient current_user)
    ("[Alert] Pump " ++ py_str (Serial_Number row) ++ " — Missing expiry")
    (MissingExpiryBody (py_str (Serial_Number row)) (py_str (Model row))).

(** The number of rows an update by id rewrites. *)
Definition rows_with_id (df : Table) (id : Cell) : nat :=
  List.length (filter (fun r => cell_eqb (ID r) id) df).

(** Whether a row counts for patient [p]: the filter of
    [existing_count]. *)
Definition counts_for (p : string) (r : Row) : bool :=
  model_is_crono (Model r) && cell_eqb (Patient r) (Str p).
(* ------------------------------------------------------------------ *)
(** ** Sample data *)

Definition row_px01 : Row := set_ID (Str "PX-01 - 05/01/2020") blank_row.

Definition row_month_first : Row := set_ID (Str "PX-02 - 01/25/2020") blank_row.

Definition row_stored : Row :=
  set_Expiry (Txt "03/04/2021") (set_ID (Str "PX-03 - 05/01/2020") blank_row).

(** An identifier whose hyphen stands between two tabs. *)
Definition row_tabs : Row :=
  set_ID (Str ("PX-01" ++ String (ascii_of_nat 9) "-"
                 ++ String (ascii_of_nat 9) "05/01/2020")) blank_row.

Definition world_cached (t : Table) (ok : bool) : World :=
  mkWorld (Some t) (Some t) ok.

(** Instances of the library parameters for the concrete scenarios. *)
Definition no_int : string -> option Z := fun _ => None.

Definition clock_text : Timestamp -> string := fun _ => "2026-11-04 10:00:00".

Definition admin : User := mkUser (Some "admin") None (Some "admin@cmc") (Some "root").

Definition client_user : User :=
  mkUser (Some "user") (Some "Clinic A") None (Some "clinic-a").

(** 4 November 2026, 10:00:00 and 23:00:00, in seconds since midnight. *)
Definition now_10h : Timestamp := mkTs (mkDate 2026 11 4) 36000.

Definition today_23h : Timestamp := mkTs (mkDate 2026 11 4) 82800.

Definition in_20_days : Timestamp := mkTs (mkDate 2026 11 24) 36000.

Definition pump (id model status patient : Cell) (exp : DateCell) : Row :=
  mkRow id (Str "Clinic A") model (Some 1) (Str "SN-1") (Some 2024) status
        (Str "2026-01-01 00:00:00") exp patient (Str "").

Definition crono (id patient : string) : Row :=
  pump (Str id) (Str "Crono SC 20") (Str "In use") (Str patient)
       (Ts (midnight 2030 1 1)).

Definition row_no_expiry : Row :=
  pump (Str "PX-10") (Str "Pump X") (Str "In use") NA NaT.

Definition row_expiring (exp : Timestamp) : Row :=
  pump (Str "PX-11") (Str "Pump X") (Str "In stock") NA (Ts exp).

(** Two CRONO SC pumps of patient P100, and a third pump of another
    model that carries the same patient. *)
Definition pair_P100 : Table := [crono "A" "P100"; crono "B" "P100"].

Definition other_P100 : Row :=
  pump (Str "C") (Str "Other pump") (Str "In use") (Str "P100")
       (Ts (midnight 2030 1 1)).

(** Three CRONO SC pumps entered under one id. *)
Definition same_id_table : Table := [crono "A" "P1"; crono "A" "P2"; crono "A" "P3"].

Definition triple_P100 : Table :=
  [crono "A" "P100"; crono "B" "P100"; crono "C" "P100"].

Definition edit_form (model : string) (patient : option string) : Edit.Form :=
  Edit.mkForm model "2024" "In use" "Clinic A" "checked" (mkDate 2030 1 1) 1
              "SN-1" patient.

Definition add_form (id model patient : string) : Add.Form :=
  Add.mkForm id model 2024 "In stock" "" 0 "SN-9" (mkDate 2030 1 1) patient.

Definition world0 (df : Table) : World := mkWorld (Some df) (Some df) true.

(** Networks: nothing works; only the fallback works; everything works. *)
Definition net_down : Smtp.Net := fun _ _ => false.

Definition net_fallback_only : Smtp.Net :=
  fun t _ => match t with Smtp.SMTP_SSL_465 => false | Smtp.SMTP_587 => true end.

Definition net_up : Smtp.Net := fun _ _ => true.

Definition secrets_set : Secrets := mkSecrets (Some "cmc@mail") (Some "secret").

Definition secrets_unset : Secrets := mkSecrets None None.

Definition sample_call : EmailCall := missing_expiry_email admin row_no_expiry.

(* ------------------------------------------------------------------ *)
(** ** Vocabulary of the further properties *)

(** A text without whitespace. *)
Fixpoint no_space (txt : string) : bool :=
  match txt with
  | EmptyString => true
  | String ch rest => negb (PyStr.isspace ch) && no_space rest
  end.

(** The two parses that [parse_date_from_id] tries on its candidate. *)
Definition parse_day_then_month
  (parse_datetime : bool -> string -> option Timestamp) (candidate : string)
  : DateCell :=
  match parse_datetime true candidate with
  | Some D => Ts D
  | None => match parse_datetime false candidate with
            | Some D => Ts D
            | None => NaT
            end
  end.

(** The notification of a CRONO SC pump without patient (lines
    225-227) and of a patient with a single CRONO SC pump (lines
    236-246). *)
Definition no_patient_email (current_user : User) (r : Row) : EmailCall :=
  mkEmail (recipient current_user)
    ("[Alert] CRONO SC " ++ py_str (Serial_Number r) ++ " — no patient assigned")
    (NoPatientBody (py_str (Serial_Number r))).

Definition single_pump_email (current_user : User) (patient : string)
  (sample : Row) : EmailCall :=
  mkEmail (recipient current_user)
    ("[Alert] Patient " ++ patient ++ " has only 1 CRONO SC pump")
    (SinglePumpBody patient 1 sample).

(** [cronos] of [check_expirations] and [render_warnings]. *)
Definition cronos_of (df : Table) : Table :=
  filter (fun r => model_is_crono (Model r)) df.

(** Whether a notification is the single-pump alert of a patient. *)
Definition is_single_pump_alert (patient : string) (call : EmailCall) : bool :=
  match body call with
  | SinglePumpBody p _ _ => (p =? patient)%string
  | _ => false
  end.

(** An expired CRONO SC pump without patient. *)
Definition crono_expired_unassigned : Row :=
  pump (Str "A") (Str "Crono SC 20") (Str "In use") (Str "")
       (Ts (midnight 2020 1 1)).

(** The text typed for the patient of row [idx]:
    [st.session_state.get(f"patient_{idx}", "")]. *)
Definition typed_patient (f : Edit.Form) : string :=
  match Edit.session_patient f with
  | Some v => v
  | None => ""
  end.

(** A mutation that reached [save_db]. *)
Definition accepted (o : Outcome) : bool :=
  match o with
  | Saved | SaveFailed => true
  | _ => false
  end.

(* ------------------------------------------------------------------ *)
(** ** Dispatch of the notifications of a scan *)

(** The calls [send_email(...)] that [check_expirations] makes one after
    the other, their results being dropped. *)
Fixpoint send_all (secrets : Secrets) (net : Smtp.Net) (calls : list EmailCall)
  : Smtp.M unit :=
  match calls with
  | [] => Smtp.ret tt
  | call :: rest =>
      Smtp.bind (send_email secrets net call)
                (fun _ => send_all secrets net rest)
  end.

(** The scan as the main script runs it (lines 417-420): an exception of
    [check_expirations] is caught and shown, the script goes on. *)
Definition run_scan
  (parse_datetime : bool -> string -> option Timestamp)
  (secrets : Secrets) (net : Smtp.Net) (now : Timestamp) (df : Table) (user : User)
  : Smtp.M unit :=
  Smtp.try_except
    (send_all secrets net (check_expirations parse_datetime now df user))
    (Smtp.ret tt).

Definition is_connect (entry : Smtp.Transport * Smtp.Op) : bool :=
  match snd entry with
  | Smtp.Connect => true
  | _ => false
  end.

(** The connections opened in a log. *)
Definition connections (log : Smtp.Log) : nat :=
  List.length (filter is_connect log).

(** The messages that went out: the [send_message] operations of a log
    that succeeded. *)
Definition delivered (net : Smtp.Net) (log : Smtp.Log) : nat :=
  List.length
    (filter (fun entry => match snd entry with
                          | Smtp.SendMessage => net (fst entry) Smtp.SendMessage
                          | _ => false
                          end) log).

(* ------------------------------------------------------------------ *)
(** ** Filters *)

(** A value of a filtered column: a year or a text. *)
Inductive Key := KInt (z : Z) | KStr (s : string).

(** The order of [sorted(...)] on the values of one column. *)
Definition key_compare (a b : Key) : comparison :=
  match a, b with
  | KInt x, KInt y => Z.compare x y
  | KStr x, KStr y => String.compare x y
  | KInt _, KStr _ => Lt
  | KStr _, KInt _ => Gt
  end.

Definition key_eqb (a b : Key) : bool :=
  match key_compare a b with
  | Eq => true
  | _ => false
  end.

(** The columns that [apply_filters] offers: Year, Model and Status,
    and Client for an admin.  (The WarningType column it would add in
    the warnings context is not yet in the table when it is called.) *)
Inductive Column := Year_col | Model_col | Status_col | Client_col.

Definition text_key (c : Cell) : option Key :=
  match c with
  | NA => None
  | Str s => Some (KStr s)
  end.

(** [df[col]] on one row, [None] for a missing value. *)
Definition column_value (col : Column) (r : Row) : option Key :=
  match col with
  | Year_col => option_map KInt (Year r)
  | Model_col => text_key (Model r)
  | Status_col => text_key (Status r)
  | Client_col => text_key (Client r)
  end.

Fixpoint insert_option (k : Key) (l : list Key) : list Key :=
  match l with
  | [] => [k]
  | x :: l' =>
      match key_compare k x with
      | Lt => k :: l
      | Eq => l
      | Gt => x :: insert_option k l'
      end
  end.

(** [sorted([o for o in df[col].dropna().unique()])]. *)
Fixpoint column_options (col : Column) (df : Table) : list Key :=
  match df with
  | [] => []
  | r :: rest =>
      match column_value col r with
      | Some k => insert_option k (column_options col rest)
      | None => column_options col rest
      end
  end.

(** [df[col].isin(selected)] on one row. *)
Definition isin (v : option Key) (selected : list Key) : bool :=
  match v with
  | Some k => existsb (key_eqb k) selected
  | None => false
  end.

Definition filter_columns (user : User) : list Column :=
  ([Year_col; Model_col; Status_col]
   ++ (if is_admin user then [Client_col] else []))%list.

Section Filters.

(** [st.multiselect(col, options, default=options, key=...)]: what is
    selected among the options offered for a column. *)
Variable multiselect : Column -> list Key -> list Key.

(** One turn of the loop of [apply_filters] (lines 176-183). *)
Definition filter_column (df : Table) (col : Column) : Table :=
  match column_options col df with
  | [] => df
  | options =>
      match multiselect col options with
      | [] => df
      | selected => filter (fun r => isin (column_value col r) selected) df
      end
  end.

(** [apply_filters] (app.py, line 167). *)
Definition apply_filters (df : Table) (user : User) : Table :=
  fold_left filter_column (filter_columns user) df.

End Filters.

(** The selection of an untouched filter: [default=options]. *)
Definition select_all : Column -> list Key -> list Key := fun _ options => options.

(** A row with a value in each of the given columns. *)
Definition complete_for (cols : list Column) (r : Row) : bool :=
  forallb (fun col => match column_value col r with
                      | Some _ => true
                      | None => false
                      end) cols.

(** The rows a non-admin sees: [df[df["Client"] == client]] (line 492). *)
Definition client_rows (df : Table) (user : User) : Table :=
  filter (fun r => client_matches r user) df.

(* ------------------------------------------------------------------ *)
(** ** The edit form as it is first shown *)

Section FormDefaults.

Variable parse_datetime : bool -> string -> option Timestamp.

(** [str(n)] on an integer. *)
Variable str_int : Z -> string.

(** [safe_date(val)] (app.py, line 266), [today] being
    [datetime.now().date()]. *)
Definition safe_date (val : DateCell) (today : Date) : Date :=
  match to_datetime parse_datetime false val with
  | Ts parsed => ts_date parsed
  | _ => today
  end.

(** [STATUS_OPTIONS[s_index]] (lines 279-283): the status of the row
    when it is an option, the first option otherwise. *)
Definition shown_status (status : Cell) : string :=
  if in_strings (safe_str status) STATUS_OPTIONS then safe_str status
  else "In use".

(** [safe_str(row.get("Year"))]. *)
Definition year_text (y : option Z) : string :=
  match y with
  | Some z => str_int z
  | None => ""
  end.

(** [safe_int(row.get("Quantity Sold"))]. *)
Definition shown_quantity (q : option Z) : Z :=
  match q with
  | Some z => z
  | None => 0
  end.

(** The values of the widgets of lines 275-298 before the user touches
    them; the patient input exists, empty, only for a CRONO SC row
    without patient, and shows the stored patient for another model. *)
Definition default_form (row : Row) (today : Date) : Edit.Form :=
  Edit.mkForm
    (safe_str (Model row))
    (year_text (Year row))
    (shown_status (Status row))
    (safe_str (Client row))
    (safe_str (Notes row))
    (safe_date (Expiry row) today)
    (shown_quantity (Quantity_Sold row))
    (safe_str (Serial_Number row))
    (if PyStr.contains "CRONO SC" (PyStr.upper (safe_str (Model row)))
     then if is_empty (Patient row) then Some "" else None
     else Some (safe_str (Patient row))).

End FormDefaults.

(** A row all of whose text cells and whose quantity are filled in, the
    quantity within the bounds of its input ([min_value=0]). *)
Definition filled_in (r : Row) : Prop :=
  (exists v, ID r = Str v) /\ (exists v, Client r = Str v)
  /\ (exists v, Model r = Str v) /\ (exists v, Serial_Number r = Str v)
  /\ (exists v, Notes r = Str v)
  /\ (exists v, Quantity_Sold r = Some v /\ 0 <= v)
  /\ (exists v, Status r = Str v /\ In v STATUS_OPTIONS).

Definition set_Last_Updated (v : Cell) (r : Row) : Row :=
  mkRow (ID r) (Client r) (Model r) (Quantity_Sold r) (Serial_Number r)
        (Year r) (Status r) v (Expiry r) (Patient r) (Notes r).

(* ------------------------------------------------------------------ *)
(** ** Analytics *)

(** [sum()] skips missing quantities. *)
Definition quantity (r : Row) : Z :=
  match Quantity_Sold r with
  | Some q => q
  | None => 0
  end.

(** Adding a quantity to the group of a year, groups sorted by year. *)
Fixpoint add_to_group (y q : Z) (groups : list (Z * Z)) : list (Z * Z) :=
  match groups with
  | [] => [(y, q)]
  | (y', total) :: rest =>
      match Z.compare y y' with
      | Lt => (y, q) :: groups
      | Eq => (y', total + q) :: rest
      | Gt => (y', total) :: add_to_group y q rest
      end
  end.

(** [df.groupby("Year", dropna=True)["Quantity Sold"].sum().reset_index()]
    (line 448): one (year, total) per year, by increasing year. *)
Fixpoint qty_by_year (df : Table) : list (Z * Z) :=
  match df with
  | [] => []
  | r :: rest =>
      match Year r with
      | Some y => add_to_group y (quantity r) (qty_by_year rest)
      | None => qty_by_year rest
      end
  end.

(** A row of year [y]. *)
Definition in_year (y : Z) (r : Row) : bool :=
  match Year r with
  | Some y' => y' =? y
  | None => false
  end.

(** The total of the rows of year [y]. *)
Definition year_total (y : Z) (df : Table) : Z :=
  fold_right Z.add 0 (map quantity (filter (in_year y) df)).

Definition total_of_groups (groups : list (Z * Z)) : Z :=
  fold_right Z.add 0 (map snd groups).

Definition has_year (r : Row) : bool :=
  match Year r with
  | Some _ => true
  | None => false
  end.

(* ------------------------------------------------------------------ *)
(** ** Decimal instances of [str] and [int] on integers *)

From Stdlib Require DecimalString DecimalZ DecimalPos.

Definition dec_str (z : Z) : string :=
  DecimalString.NilZero.string_of_int (Z.to_int z).

Definition dec_int (txt : string) : option Z :=
  option_map Z.of_int (DecimalString.NilZero.int_of_string txt).

(** A complete pump that has no expiry, and one whose expiry has a time
    of day. *)
Definition pump_without_expiry : Row :=
  mkRow (Str "PX-50") (Str "Clinic A") (Str "Pump X") (Some 3) (Str "SN-50")
        (Some 2024) (Str "In stock") (Str "2026-01-01 00:00:00") NaT NA
        (Str "new").

Definition pump_expiring_at_noon : Row :=
  mkRow (Str "PX-51") (Str "Clinic A") (Str "Crono SC 20") (Some 3)
        (Str "SN-51") (Some 2024) (Str "In use") (Str "2026-01-01 00:00:00")
        (Ts (mkTs (mkDate 2027 3 1) 43200)) (Str "P5") (Str "").

(** The total shown for year [y] in a list of groups, if any. *)
Fixpoint total_in (y : Z) (groups : list (Z * Z)) : option Z :=
  match groups with
  | [] => None
  | (y', total) :: rest => if y' =? y then Some total else total_in y rest
  end.

(* ------------------------------------------------------------------ *)
(** ** The expiry first shown by the add form *)

(** [default_expiry] of the add form (lines 511-515): the date of the id
    plus four years, or today plus four years. *)
Definition default_expiry
  (parse_datetime : bool -> string -> option Timestamp)
  (new_id : string) (today : Date) : Date :=
  match (if negb (is_empty (Str new_id))
         then parse_date_from_id parse_datetime (Str new_id)
         else NaT) with
  | Ts id_date => ts_date (relativedelta_add FIXED_EXPIRY_YEARS 0 id_date)
  | _ => ts_date (relativedelta_add FIXED_EXPIRY_YEARS 0 (mkTs today 0))
  end.

(** A text made of whitespace only. *)
Definition all_space (txt : string) : bool :=
  forallb PyStr.isspace (list_ascii_of_string txt).

(* ================================================================== *)
(** * Properties *)

(* ------------------------------------------------------------------ *)
(** ** Expiry derivation *)

Section ExpiryRule.

Variable parse_datetime : bool -> string -> option Timestamp.

Lemma to_datetime_cases (b : bool) (v : DateCell) :
  to_datetime parse_datetime b v = NaT
  \/ exists t, to_datetime parse_datetime b v = Ts t.
Proof.
  destruct v as [ | t | txt]; simpl; auto.
  - right; now exists t.
  - destruct (parse_datetime b txt) as [t|]; auto. right; now exists t.
Qed.

Lemma to_datetime_fixed (b : bool) (v : DateCell) :
  to_datetime parse_datetime false (to_datetime parse_datetime b v)
  = to_datetime parse_datetime b v.
Proof.
  destruct (to_datetime_cases b v) as [H | [t H]]; rewrite H; reflexivity.
Qed.

Lemma parse_date_from_id_segment (id : Cell) :
  parse_date_from_id parse_datetime id =
  match spec_trailing_segment PyStr.isspace id with
  | None => NaT
  | Some seg =>
      match parse_datetime true seg with
      | Some D => Ts D
      | None => match parse_datetime false seg with
                | Some D => Ts D
                | None => NaT
                end
      end
  end.
Proof.
  unfold parse_date_from_id, spec_trailing_segment, PyStr.re_split_ws_hyphen_ws.
  destruct (is_empty id); [reflexivity|].
  simpl to_datetime.
  destruct (parse_datetime true _) as [D|]; simpl; [reflexivity|].
  destruct (parse_datetime false _) as [D|]; reflexivity.
Qed.

Lemma parse_date_from_id_cases (id : Cell) :
  parse_date_from_id parse_datetime id = NaT
  \/ exists t, parse_date_from_id parse_datetime id = Ts t.
Proof.
  rewrite parse_date_from_id_segment.
  destruct (spec_trailing_segment _ id) as [seg|]; auto.
  destruct (parse_datetime true seg) as [D|]; [right; now exists D|].
  destruct (parse_datetime false seg) as [D|]; [right; now exists D|auto].
Qed.

Lemma compute_expiry_refines (row : Row) :
  compute_expiry parse_datetime row
  = spec_expiry PyStr.isspace parse_datetime row.
Proof.
  unfold compute_expiry, spec_expiry.
  destruct (to_datetime_cases false (Expiry row)) as [H | [t H]]; rewrite H; simpl;
    [|reflexivity].
  rewrite parse_date_from_id_segment.
  destruct (spec_trailing_segment _ (ID row)) as [seg|]; [|reflexivity].
  destruct (parse_datetime true seg) as [D|]; [reflexivity|].
  destruct (parse_datetime false seg) as [D|]; reflexivity.
Qed.

Lemma compute_expiry_cases (row : Row) :
  compute_expiry parse_datetime row = NaT
  \/ exists t, compute_expiry parse_datetime row = Ts t.
Proof.
  unfold compute_expiry.
  destruct (to_datetime_cases false (Expiry row)) as [H | [t H]]; rewrite H; simpl.
  - destruct (parse_date_from_id_cases (ID row)) as [H' | [t H']]; rewrite H'; simpl;
      auto.
    right; eexists; reflexivity.
  - right; now exists t.
Qed.

Lemma load_rows_Expiry (raw : Table) :
  map Expiry (load_rows parse_datetime raw)
  = map (compute_expiry parse_datetime) raw.
Proof.
  unfold load_rows. rewrite map_map. apply map_ext. intros r. reflexivity.
Qed.

Lemma load_rows_ID (raw : Table) :
  map ID (load_rows parse_datetime raw) = map ID raw.
Proof.
  unfold load_rows. rewrite map_map. apply map_ext. intros r. reflexivity.
Qed.

End ExpiryRule.





(** C7.  Expiry derivation is idempotent: deriving the expiry of a row
    whose expiry is the result of a previous derivation, everything else
    unchanged, gives the same value; so does reloading loaded rows, and
    so does the admin recomputation from the ids. *)
Theorem compute_expiry_idempotent
  (parse_datetime : bool -> string -> option Timestamp) :
  (forall row,
     compute_expiry parse_datetime
       (set_Expiry (compute_expiry parse_datetime row) row)
     = compute_expiry parse_datetime row)
  /\ (forall raw,
        map Expiry (load_rows parse_datetime (load_rows parse_datetime raw))
        = map Expiry (load_rows parse_datetime raw))
  /\ (forall r,
        recompute_expiry_from_id parse_datetime
          (recompute_expiry_from_id parse_datetime r)
        = recompute_expiry_from_id parse_datetime r).
Proof.
  assert (Hrow : forall row,
             compute_expiry parse_datetime
               (set_Expiry (compute_expiry parse_datetime row) row)
             = compute_expiry parse_datetime row).
  { intros row.
    destruct (compute_expiry_cases parse_datetime row) as [H | [t H]].
    - rewrite H. revert H. unfold compute_expiry. simpl.
      destruct (to_datetime_cases parse_datetime false (Expiry row))
        as [E | [t E]]; rewrite E; simpl; [|discriminate].
      destruct (parse_date_from_id_cases parse_datetime (ID row))
        as [I | [t I]]; rewrite I; simpl; [reflexivity|discriminate].
    - rewrite H. reflexivity. }
  split; [exact Hrow|split].
  - intros raw. rewrite !load_rows_Expiry.
    unfold load_rows. rewrite map_map. apply map_ext. intros r.
    apply (Hrow (set_Status (normalize_status (Status r)) r)).
  - intros r. reflexivity.
Qed.

(* ------------------------------------------------------------------ *)
(** ** Persistence *)

(** C8.  [save_db] never raises; when the write fails it returns false
    and leaves the store as it was; when the write succeeds the file
    holds the table, the read cache is invalidated and it returns true. *)
Theorem save_db_contract (df : Table) (w : World) :
  (exists b w', save_db df w = Ok (b, w'))
  /\ (disk_ok w = false -> save_db df w = Ok (false, w))
  /\ (disk_ok w = true ->
      exists w', save_db df w = Ok (true, w')
                 /\ cache w' = None /\ file w' = Some df).
Proof.
  unfold save_db, to_excel, load_db_clear.
  destruct (disk_ok w) eqn:Hdisk; simpl.
  - split; [eauto|]. split; [discriminate|]. intros _. eauto.
  - split; [eauto|]. split; [reflexivity|discriminate].
Qed.


Lemma save_db_contract_witness :
  save_db [row_px01] (world_cached [] false) = Ok (false, world_cached [] false)
  /\ exists w', save_db [row_px01] (world_cached [] true) = Ok (true, w')
                /\ cache w' = None /\ file w' = Some [row_px01].
Proof.
  split.
  - apply (proj1 (proj2 (save_db_contract [row_px01] (world_cached [] false)))).
    reflexivity.
  - apply (proj2 (proj2 (save_db_contract [row_px01] (world_cached [] true)))).
    reflexivity.
Defined.

(** After a successful save the next [load_db] reads the file again. *)
Lemma load_db_after_save
  (parse_datetime : bool -> string -> option Timestamp) (df : Table) (w w' : World) :
  save_db df w = Ok (true, w') ->
  exists w'', load_db parse_datetime w'
              = Ok (load_rows parse_datetime df, w'').
Proof.
  unfold save_db, to_excel, load_db_clear.
  destruct (disk_ok w); simpl; intros H; inversion H; subst; clear H.
  unfold load_db; simpl. eauto.
Qed.

(* ------------------------------------------------------------------ *)
(** ** Dispatch *)

Ltac smtp_pick j k :=
  solve [ exists j, k; cbn; repeat split; intros; try reflexivity;
          try discriminate; try lia; auto ].

Ltac smtp_search :=
  first [ smtp_pick 3%nat 0%nat
        | smtp_pick 1%nat 1%nat | smtp_pick 1%nat 2%nat
        | smtp_pick 1%nat 3%nat | smtp_pick 1%nat 4%nat
        | smtp_pick 2%nat 1%nat | smtp_pick 2%nat 2%nat
        | smtp_pick 2%nat 3%nat | smtp_pick 2%nat 4%nat
        | smtp_pick 3%nat 1%nat | smtp_pick 3%nat 2%nat
        | smtp_pick 3%nat 3%nat | smtp_pick 3%nat 4%nat ].



(* ------------------------------------------------------------------ *)
(** ** Calendar arithmetic *)

#[local] Arguments Z.add !x !y.
#[local] Arguments Z.sub !m !n.
#[local] Arguments Z.mul !x !y.
#[local] Arguments Z.min !n !m.
#[local] Arguments Z.ltb !x !y.
#[local] Arguments Z.leb !x !y.
#[local] Arguments Z.eqb !x !y.
#[local] Arguments isleap : simpl never.

Ltac calc := cbn in *.

Ltac bool_to_Z :=
  repeat rewrite ?orb_true_iff, ?andb_true_iff, ?orb_false_iff, ?andb_false_iff,
    ?Z.ltb_lt, ?Z.eqb_eq, ?Z.leb_le, ?Z.ltb_ge, ?Z.eqb_neq, ?Z.leb_gt in *.

Ltac split_ifs :=
  repeat match goal with
         | |- context [if ?b then _ else _] => destruct b eqn:?
         | H : context [if ?b then _ else _] |- _ => destruct b eqn:?
         end.

(** Comparisons of dates and datetimes, reduced to integer arithmetic. *)
Ltac order_solve :=
  unfold ts_leb, ts_ltb, date_leb, date_ltb, date_eqb, relativedelta_add in *;
  cbn [ts_date ts_time year month day] in *;
  split_ifs; bool_to_Z; lia.

Lemma isleap_true (yv : Z) :
  isleap yv = true
  <-> (yv mod 4 = 0 /\ (yv mod 100 <> 0 \/ yv mod 400 = 0)).
Proof.
  unfold isleap.
  rewrite andb_true_iff, orb_true_iff, negb_true_iff, !Z.eqb_eq, Z.eqb_neq.
  tauto.
Qed.

Lemma days_before_year_succ (yv : Z) :
  days_before_year (yv + 1)
  = days_before_year yv + (if isleap yv then 366 else 365).
Proof.
  unfold days_before_year.
  replace (yv + 1 - 1) with yv by lia.
  destruct (isleap yv) eqn:L.
  - apply isleap_true in L. Z.to_euclidean_division_equations. lia.
  - assert (~ (yv mod 4 = 0 /\ (yv mod 100 <> 0 \/ yv mod 400 = 0))) as N.
    { rewrite <- isleap_true. congruence. }
    Z.to_euclidean_division_equations. lia.
Qed.

Lemma days_before_year_mono (y1 y2 : Z) :
  y1 <= y2 -> days_before_year y1 <= days_before_year y2.
Proof.
  unfold days_before_year. intros. Z.to_euclidean_division_equations. lia.
Qed.

Lemma month_cases (mv : Z) :
  1 <= mv <= 12 ->
  mv = 1 \/ mv = 2 \/ mv = 3 \/ mv = 4 \/ mv = 5 \/ mv = 6 \/
  mv = 7 \/ mv = 8 \/ mv = 9 \/ mv = 10 \/ mv = 11 \/ mv = 12.
Proof. lia. Qed.

Ltac split_month H :=
  apply month_cases in H;
  destruct H as [H|[H|[H|[H|[H|[H|[H|[H|[H|[H|[H|H]]]]]]]]]]]; subst.

Lemma date_ltb_true (a b : Date) :
  date_ltb a b = true <->
  (year a < year b \/
   (year a = year b
    /\ (month a < month b \/ (month a = month b /\ day a < day b)))).
Proof.
  unfold date_ltb.
  rewrite !orb_true_iff, !andb_true_iff, !orb_true_iff, !andb_true_iff,
    !Z.ltb_lt, !Z.eqb_eq. tauto.
Qed.

Lemma date_trichotomy (a b : Date) :
  date_ltb a b = true \/ a = b \/ date_ltb b a = true.
Proof.
  rewrite !date_ltb_true. destruct a as [ya ma da], b as [yb mb db]; simpl.
  destruct (Z.lt_trichotomy ya yb) as [|[|]]; try tauto.
  destruct (Z.lt_trichotomy ma mb) as [|[|]]; try (subst; tauto).
  destruct (Z.lt_trichotomy da db) as [|[|]]; subst; try tauto.
  all: try (right; right; right; split; [reflexivity|tauto]).
  all: try (left; right; split; [reflexivity|tauto]).
Qed.

(** The day of the year of a calendar date lies within its year. *)
Lemma within_year (d : Date) :
  valid_date d ->
  1 <= days_before_month (year d) (month d) + day d
    <= if isleap (year d) then 366 else 365.
Proof.
  destruct d as [yv mv dv]. unfold valid_date; simpl. intros [Hm Hd].
  unfold days_before_month. unfold monthrange in Hd.
  split_month Hm; calc; destruct (isleap yv); lia.
Qed.

(** [toordinal] is strictly increasing on calendar dates. *)
Lemma toordinal_lt (a b : Date) :
  valid_date a -> valid_date b -> date_ltb a b = true ->
  toordinal a < toordinal b.
Proof.
  intros Va Vb H. apply date_ltb_true in H.
  pose proof (within_year a Va) as Wa. pose proof (within_year b Vb) as Wb.
  unfold toordinal.
  destruct H as [Hy | [Hy [Hm | [Hm Hd]]]].
  - assert (days_before_year (year a + 1) <= days_before_year (year b))
      by (apply days_before_year_mono; lia).
    rewrite days_before_year_succ in H. lia.
  - rewrite Hy. destruct a as [ya ma da], b as [yb mb db]; simpl in *.
    destruct Va as [Ma Da], Vb as [Mb Db]; simpl in *. subst yb.
    unfold days_before_month. unfold monthrange in Da.
    split_month Ma; split_month Mb; calc; try lia;
      destruct (isleap ya); lia.
  - rewrite Hy, Hm. lia.
Qed.

Lemma toordinal_lt_inv (a b : Date) :
  valid_date a -> valid_date b -> toordinal a < toordinal b ->
  date_ltb a b = true.
Proof.
  intros Va Vb H. destruct (date_trichotomy a b) as [L | [E | G]]; auto.
  - subst. lia.
  - apply (toordinal_lt b a Vb Va) in G. lia.
Qed.

(** One month later is a calendar date at least 28 days away. *)
Lemma next_month_valid_ordinal (d : Date) (t : Z) :
  valid_date d ->
  valid_date (ts_date (relativedelta_add 0 1 (mkTs d t)))
  /\ toordinal d + 28
     <= toordinal (ts_date (relativedelta_add 0 1 (mkTs d t))).
Proof.
  destruct d as [yv mv dv]. unfold valid_date; simpl. intros [Hm Hd].
  unfold relativedelta_add, toordinal, days_before_month; calc.
  unfold monthrange in *.
  replace (yv + 0) with yv by lia.
  split_month Hm; calc.
  12: { pose proof (days_before_year_succ yv) as Hs.
        unfold days_before_year in Hs. destruct (isleap yv); lia. }
  all: destruct (isleap yv); calc; lia.
Qed.

Lemma date_leb_false (a b : Date) :
  date_leb a b = false <-> date_ltb b a = true.
Proof. destruct a, b. split; intros; order_solve. Qed.

Lemma ts_leb_false (a b : Timestamp) :
  ts_leb a b = false <-> ts_ltb b a = true.
Proof. destruct a as [[] ?], b as [[] ?]. split; intros; order_solve. Qed.

Lemma later_than_next_month (now exp : Timestamp) :
  1 <= month (ts_date now) ->
  ts_ltb (relativedelta_add 0 1 now) exp = true ->
  date_ltb (ts_date now) (ts_date exp) = true.
Proof. destruct now as [[] ?], exp as [[] ?]. intros. order_solve. Qed.

(** The [now < exp] tests of the second and third branches add nothing
    once the first branch has failed. *)
Lemma expiry_subject_tier (now exp : Timestamp) :
  ts_leb exp (relativedelta_add 0 6 now) = true ->
  expiry_subject now exp = Some (tier_by_date now exp).
Proof.
  intros H6. unfold expiry_subject, tier_by_date.
  destruct (date_leb (ts_date exp) (ts_date now)) eqn:Hd; [reflexivity|].
  apply date_leb_false in Hd.
  assert (ts_ltb now exp = true) as ->
      by (unfold ts_ltb; rewrite Hd; reflexivity).
  rewrite H6. simpl.
  destruct (ts_leb exp (relativedelta_add 0 1 now)); reflexivity.
Qed.

Lemma tier_of_date_valued_expiry (now exp : Timestamp) :
  ts_time exp = 0 -> 0 <= ts_time now ->
  tier_by_date now exp = tier_by_instant now exp.
Proof.
  intros H0 Hnow. unfold tier_by_date, tier_by_instant.
  assert (date_leb (ts_date exp) (ts_date now) = ts_leb exp now) as ->;
    [|reflexivity].
  destruct now as [[] ?], exp as [[] ?]. simpl in H0, Hnow. subst.
  unfold ts_leb, date_leb. cbn [ts_date ts_time].
  destruct (date_ltb _ _); [reflexivity|]. simpl.
  destruct (date_eqb _ _); [|reflexivity]. simpl.
  symmetry. apply Z.leb_le. assumption.
Qed.

Lemma twenty_days_within_one_month (now exp : Timestamp) :
  valid_date (ts_date now) -> valid_date (ts_date exp) ->
  toordinal (ts_date exp) = toordinal (ts_date now) + 20 ->
  ts_time exp = ts_time now ->
  expiry_subject now exp = Some SUBJECT_1M.
Proof.
  intros Vn Ve Hord Htime.
  assert (date_ltb (ts_date now) (ts_date exp) = true) as Hlater
      by (apply toordinal_lt_inv; auto; lia).
  destruct now as [dn tn]. simpl in *.
  destruct (next_month_valid_ordinal dn tn Vn) as [V1 H28].
  assert (date_ltb (ts_date exp)
            (ts_date (relativedelta_add 0 1 (mkTs dn tn))) = true) as Hin
      by (apply toordinal_lt_inv; auto; lia).
  unfold expiry_subject. cbn [ts_date].
  assert (date_leb (ts_date exp) dn = false) as ->
      by (apply date_leb_false; exact Hlater).
  unfold ts_ltb at 1. cbn [ts_date]. rewrite Hlater.
  unfold ts_leb at 1. rewrite Hin. reflexivity.
Qed.

(* ------------------------------------------------------------------ *)
(** ** The warning scan *)

Lemma length_append (a b : string) :
  String.length (a ++ b) = (String.length a + String.length b)%nat.
Proof. induction a as [|ch a IH]; simpl; [reflexivity|now rewrite IH]. Qed.

Lemma check_row_in_scan
  (parse_datetime : bool -> string -> option Timestamp) (now : Timestamp)
  (df : Table) (current_user : User) (row : Row) (call : EmailCall) :
  In row df ->
  In call (check_row parse_datetime now current_user row) ->
  In call (check_expirations parse_datetime now df current_user).
Proof.
  intros Hrow Hcall. unfold check_expirations.
  apply in_or_app. left. apply in_flat_map. exists row. auto.
Qed.

(** C4 (amended).  For a row with status In use or In stock whose expiry
    is at or before now plus 6 months, the scan picks exactly one tier,
    the most urgent one that matches: expired when the calendar date of
    the expiry is today or earlier; else within 1 month when the expiry
    is at or before now plus 1 month; else within 6 months.  The three
    conditions exclude one another, and for an expiry that is a pure
    date (midnight) the first one is [expiry <= now].  An expiry 20 days
    from now gets the 1-month tier. *)
Theorem expiry_tier_assignment
  (parse_datetime : bool -> string -> option Timestamp)
  (now : Timestamp) (current_user : User) :
  valid_date (ts_date now) ->
  (forall row exp,
     in_strings (PyStr.strip (py_str (Status row))) ["In use"; "In stock"] = true ->
     to_datetime parse_datetime false (Expiry row) = Ts exp ->
     ts_leb exp (relativedelta_add 0 6 now) = true ->
     expiry_subject now exp = Some (tier_by_date now exp)
     /\ (visible current_user row = true ->
         check_row parse_datetime now current_user row
         = [flagged_email current_user row exp (tier_by_date now exp)]))
  /\ (forall exp,
        (tier_by_date now exp = SUBJECT_EXPIRED
         <-> date_leb (ts_date exp) (ts_date now) = true)
        /\ (tier_by_date now exp = SUBJECT_1M
            <-> date_ltb (ts_date now) (ts_date exp) = true
                /\ ts_leb exp (relativedelta_add 0 1 now) = true)
        /\ (tier_by_date now exp = SUBJECT_6M
            <-> ts_ltb (relativedelta_add 0 1 now) exp = true))
  /\ (forall exp,
        ts_time exp = 0 -> 0 <= ts_time now ->
        tier_by_date now exp = tier_by_instant now exp)
  /\ (forall row exp df,
        Status row = Str "In stock" ->
        to_datetime parse_datetime false (Expiry row) = Ts exp ->
        valid_date (ts_date exp) ->
        toordinal (ts_date exp) = toordinal (ts_date now) + 20 ->
        ts_time exp = ts_time now ->
        visible current_user row = true ->
        In row df ->
        expiry_subject now exp = Some SUBJECT_1M
        /\ In (flagged_email current_user row exp SUBJECT_1M)
              (check_expirations parse_datetime now df current_user)
        /\ ~ In (flagged_email current_user row exp SUBJECT_6M)
                (check_row parse_datetime now current_user row)).
Proof.
  intros Vnow.
  assert (Hmonth : 1 <= month (ts_date now)) by (destruct Vnow; lia).
  split; [|split; [|split]].
  - intros row exp Hstatus Hexp H6.
    pose proof (expiry_subject_tier now exp H6) as Htier.
    split; [exact Htier|]. intros Hvis.
    unfold check_row. rewrite Hexp, Hstatus, Htier, Hvis. reflexivity.
  - intros exp. unfold tier_by_date.
    destruct (date_leb (ts_date exp) (ts_date now)) eqn:Hd.
    + split; [tauto|]. split; (split; [discriminate|]).
      * intros [Hl _]. apply date_leb_false in Hl.
        destruct exp as [[] ?], now as [[] ?]. order_solve.
      * intros Hl. apply (later_than_next_month now exp Hmonth) in Hl.
        apply date_leb_false in Hl. congruence.
    + pose proof (proj1 (date_leb_false _ _) Hd) as Hl.
      destruct (ts_leb exp (relativedelta_add 0 1 now)) eqn:H1.
      * split; [split; discriminate|]. split; [tauto|].
        split; [discriminate|]. intros Hc. apply ts_leb_false in Hc. congruence.
      * split; [split; discriminate|]. split.
        { split; [discriminate|]. intros [_ Hc]. discriminate Hc. }
        split; [|reflexivity]. intros _. apply ts_leb_false. exact H1.
  - intros exp. apply tier_of_date_valued_expiry.
  - intros row exp df Hstatus Hexp Vexp Hord Htime Hvis Hin.
    pose proof (twenty_days_within_one_month now exp Vnow Vexp Hord Htime)
      as Htier.
    assert (Hrow : check_row parse_datetime now current_user row
                   = [flagged_email current_user row exp SUBJECT_1M]).
    { assert (Hst : in_strings (PyStr.strip (py_str (Status row)))
                                ["In use"; "In stock"] = true)
        by (rewrite Hstatus; vm_compute; reflexivity).
      unfold check_row. rewrite Hexp, Hst, Htier, Hvis. reflexivity. }
    split; [exact Htier|]. split.
    + apply (check_row_in_scan parse_datetime now df current_user row);
        [exact Hin|]. rewrite Hrow. left. reflexivity.
    + rewrite Hrow. intros [Heq | []]. unfold flagged_email in Heq.
      inversion Heq as [Hsubj].
      apply (f_equal (fun t => String.length t)) in Hsubj.
      rewrite !length_append in Hsubj. simpl in Hsubj. lia.
Qed.

Lemma expiry_tier_assignment_witness :
  check_row slash_date now_10h admin (row_expiring in_20_days)
  = [flagged_email admin (row_expiring in_20_days) in_20_days
       (tier_by_date now_10h in_20_days)]
  /\ (tier_by_date now_10h in_20_days = SUBJECT_1M
      <-> date_ltb (ts_date now_10h) (ts_date in_20_days) = true
          /\ ts_leb in_20_days (relativedelta_add 0 1 now_10h) = true)
  /\ tier_by_date now_10h (midnight 2026 11 4)
     = tier_by_instant now_10h (midnight 2026 11 4)
  /\ expiry_subject now_10h in_20_days = Some SUBJECT_1M.
Proof.
  assert (Vnow : valid_date (ts_date now_10h))
    by (unfold valid_date; simpl; lia).
  destruct (expiry_tier_assignment slash_date now_10h admin Vnow)
    as (Hone & Htiers & Hdate & Hscenario).
  split; [|split; [|split]].
  - apply (Hone (row_expiring in_20_days) in_20_days); reflexivity.
  - apply (Htiers in_20_days).
  - apply Hdate; [reflexivity|simpl; lia].
  - apply (Hscenario (row_expiring in_20_days) in_20_days
             [row_expiring in_20_days]);
      try reflexivity.
    + unfold valid_date; simpl; lia.
    + left; reflexivity.
Defined.

(** With "expired" read as [expiry <= now] on the clock, an expiry later
    today would fall in the 1-month tier; the scan reports it as
    expired. *)
Lemma expiry_tier_instant_counterexample :
  ts_leb today_23h now_10h = false
  /\ ts_ltb now_10h today_23h = true
  /\ ts_leb today_23h (relativedelta_add 0 1 now_10h) = true
  /\ tier_by_instant now_10h today_23h = SUBJECT_1M
  /\ expiry_subject now_10h today_23h = Some SUBJECT_EXPIRED
  /\ check_row slash_date now_10h admin (row_expiring today_23h)
     = [flagged_email admin (row_expiring today_23h) today_23h SUBJECT_EXPIRED]
  /\ expiry_subject now_10h today_23h
     <> Some (tier_by_instant now_10h today_23h).
Proof.
  repeat split; try (vm_compute; reflexivity).
  vm_compute. discriminate.
Qed.

(** C5.  For every row of the table that the acting user may see, whose
    status is In use and whose expiry is unset, the scan sends a
    "Missing expiry" notification for that row. *)
Theorem missing_expiry_is_warned
  (parse_datetime : bool -> string -> option Timestamp)
  (now : Timestamp) (df : Table) (current_user : User) (row : Row) :
  In row df ->
  visible current_user row = true ->
  PyStr.lower (PyStr.strip (py_str (Status row))) = "in use" ->
  to_datetime parse_datetime false (Expiry row) = NaT ->
  check_row parse_datetime now current_user row
    = [missing_expiry_email current_user row]
  /\ In (missing_expiry_email current_user row)
        (check_expirations parse_datetime now df current_user).
Proof.
  intros Hin Hvis Hstatus Hexp.
  assert (Hrow : check_row parse_datetime now current_user row
                 = [missing_expiry_email current_user row]).
  { unfold check_row. rewrite Hexp, Hstatus, Hvis. reflexivity. }
  split; [exact Hrow|].
  apply (check_row_in_scan parse_datetime now df current_user row);
    [exact Hin|]. rewrite Hrow. left. reflexivity.
Qed.

Lemma missing_expiry_is_warned_witness :
  In (missing_expiry_email client_user row_no_expiry)
     (check_expirations slash_date now_10h
        [row_expiring in_20_days; row_no_expiry] client_user).
Proof.
  apply (missing_expiry_is_warned slash_date now_10h
           [row_expiring in_20_days; row_no_expiry] client_user row_no_expiry).
  - right; left; reflexivity.
  - reflexivity.
  - reflexivity.
  - reflexivity.
Defined.

(** The warnings panel, unlike the scan, has no entry for a missing
    expiry: a row without expiry appears there only for its patient. *)
Lemma panel_has_no_missing_expiry_entry
  (parse_datetime : bool -> string -> option Timestamp)
  (now : Timestamp) (r : Row) :
  to_datetime parse_datetime false (Expiry r) = NaT ->
  model_is_crono (Model r) = false ->
  panel_row parse_datetime now r = [].
Proof.
  intros Hexp Hmodel. unfold panel_row, cond_missing_patient, cond_expiry_soon.
  rewrite Hmodel, Hexp. reflexivity.
Qed.

(* ------------------------------------------------------------------ *)
(** ** Mutations *)

Section MutationFacts.

Variable py_int : string -> option Z.
Variable strftime : Timestamp -> string.

Lemma commit_effect (df : Table) (w : World) (sent : list EmailCall) :
  df_after (commit df w sent) = df
  /\ emails (commit df w sent) = sent
  /\ (disk_ok w = true ->
      outcome (commit df w sent) = Saved
      /\ file (world_after (commit df w sent)) = Some df
      /\ cache (world_after (commit df w sent)) = None)
  /\ (disk_ok w = false ->
      outcome (commit df w sent) = SaveFailed
      /\ world_after (commit df w sent) = w).
Proof.
  unfold commit, save_db, to_excel, load_db_clear.
  destruct (disk_ok w); simpl; repeat split; auto; discriminate.
Qed.

Lemma commit_outcome (df : Table) (w : World) (sent : list EmailCall) :
  outcome (commit df w sent) = Saved \/ outcome (commit df w sent) = SaveFailed.
Proof.
  destruct (commit_effect df w sent) as (_ & _ & Hok & Hfail).
  destruct (disk_ok w); [left; apply Hok|right; apply Hfail]; reflexivity.
Qed.

Lemma is_crono_text_model (model : string) :
  model_is_crono (Str model) = is_crono_text model.
Proof. reflexivity. Qed.

Lemma assigned_when_patient_set (row : Row) (f : Edit.Form) :
  is_empty (Patient row) = false ->
  assigned_patient row f = safe_str (Patient row).
Proof. intros H. unfold assigned_patient. now rewrite H. Qed.

Lemma patient_set_is_string (row : Row) :
  is_empty (Patient row) = false ->
  Patient row = Str (safe_str (Patient row)).
Proof.
  destruct (Patient row) as [|txt]; simpl; [discriminate|reflexivity].
Qed.

Lemma assigned_differs_when_unset (row : Row) (f : Edit.Form) :
  is_empty (Patient row) = true ->
  is_empty (Str (assigned_patient row f)) = false ->
  assigned_patient row f <> safe_str (Patient row).
Proof.
  intros Hempty Hassigned Heq. rewrite Heq in Hassigned.
  destruct (Patient row) as [|txt].
  - vm_compute in Hassigned. discriminate.
  - unfold safe_str in Hassigned. simpl in Hassigned. congruence.
Qed.

(** The handler goes on to the save whenever the row already has a
    patient. *)
Lemma save_changes_patient_set (row : Row) (df : Table) (f : Edit.Form)
  (now : Timestamp) (mail : string) (w : World) :
  is_empty (Patient row) = false ->
  save_changes py_int strftime row df f now mail w
  = commit (map (apply_update py_int strftime row f now) df) w [].
Proof.
  intros Hset. unfold save_changes.
  rewrite (assigned_when_patient_set row f Hset), Hset, String.eqb_refl.
  simpl. rewrite andb_false_r.
  destruct (is_crono_text (Edit.m f)); reflexivity.
Qed.

Lemma save_changes_not_crono (row : Row) (df : Table) (f : Edit.Form)
  (now : Timestamp) (mail : string) (w : World) :
  is_crono_text (Edit.m f) = false ->
  save_changes py_int strftime row df f now mail w
  = commit (map (apply_update py_int strftime row f now) df) w [].
Proof. intros H. unfold save_changes. now rewrite H. Qed.

(** The handler on a CRONO SC edit of a row without patient. *)
Lemma save_changes_patient_unset (row : Row) (df : Table) (f : Edit.Form)
  (now : Timestamp) (mail : string) (w : World) :
  is_crono_text (Edit.m f) = true ->
  is_empty (Patient row) = true ->
  save_changes py_int strftime row df f now mail w
  = if is_empty (Str (assigned_patient row f))
    then mkEffect PatientRequired df w []
    else if (2 <=? existing_count df (assigned_patient row f))%nat
         then mkEffect (PatientCapExceeded
                          (existing_count df (assigned_patient row f))) df w []
         else commit (map (apply_update py_int strftime row f now) df) w [].
Proof.
  intros Hcrono Hunset. unfold save_changes. rewrite Hcrono, Hunset.
  cbv beta iota zeta. unfold negb at 1. unfold andb at 2.
  destruct (is_empty (Str (assigned_patient row f))) eqn:Hblank;
    [reflexivity|].
  unfold andb at 1.
  pose proof (assigned_differs_when_unset row f Hunset Hblank) as Hdiff.
  apply String.eqb_neq in Hdiff. rewrite Hdiff. simpl negb.
  rewrite andb_true_r. reflexivity.
Qed.

Lemma apply_update_Patient (row : Row) (f : Edit.Form) (now : Timestamp) (r : Row) :
  is_crono_text (Edit.m f) = false ->
  Patient (apply_update py_int strftime row f now r) = Patient r.
Proof.
  intros H. unfold apply_update.
  destruct (cell_eqb (ID r) (ID row)); [|reflexivity]. simpl. now rewrite H.
Qed.

End MutationFacts.

(** C9.  The cap check of the edit path rejects only a new assignment:
    a cap rejection implies that the assigned patient differs from the
    row's original one (the row had none) and that at least 2 CRONO SC
    rows carry the assigned value; an edit that leaves the patient
    unchanged is never rejected with the cap error, and a row that
    already has a patient always reaches the save, however many rows
    share its patient. *)
Theorem cap_check_spares_unchanged_patient
  (py_int : string -> option Z) (strftime : Timestamp -> string)
  (row : Row) (df : Table) (f : Edit.Form) (now : Timestamp)
  (mail : string) (w : World) :
  (forall k,
     outcome (save_changes py_int strftime row df f now mail w)
       = PatientCapExceeded k ->
     assigned_patient row f <> safe_str (Patient row)
     /\ is_empty (Patient row) = true
     /\ k = existing_count df (assigned_patient row f)
     /\ (2 <= k)%nat)
  /\ (assigned_patient row f = safe_str (Patient row) ->
      forall k,
        outcome (save_changes py_int strftime row df f now mail w)
          <> PatientCapExceeded k)
  /\ (is_empty (Patient row) = false ->
      save_changes py_int strftime row df f now mail w
      = commit (map (apply_update py_int strftime row f now) df) w []
      /\ forall k,
           outcome (save_changes py_int strftime row df f now mail w)
             <> PatientCapExceeded k).
Proof.
  assert (Hcap : forall k,
     outcome (save_changes py_int strftime row df f now mail w)
       = PatientCapExceeded k ->
     assigned_patient row f <> safe_str (Patient row)
     /\ is_empty (Patient row) = true
     /\ k = existing_count df (assigned_patient row f)
     /\ (2 <= k)%nat).
  { intros k H.
    assert (Hcommit :
              save_changes py_int strftime row df f now mail w
              <> commit (map (apply_update py_int strftime row f now) df) w []).
    { intros E. rewrite E in H.
      destruct (commit_outcome
                  (map (apply_update py_int strftime row f now) df) w [])
        as [O | O]; rewrite O in H; discriminate. }
    destruct (is_empty (Patient row)) eqn:Hunset;
      [|elim Hcommit; now apply save_changes_patient_set].
    destruct (is_crono_text (Edit.m f)) eqn:Hcrono;
      [|elim Hcommit; now apply save_changes_not_crono].
    rewrite (save_changes_patient_unset py_int strftime row df f now mail w
               Hcrono Hunset) in H, Hcommit.
    destruct (is_empty (Str (assigned_patient row f))) eqn:Hblank;
      [discriminate|].
    destruct (2 <=? existing_count df (assigned_patient row f))%nat eqn:Hk;
      [|elim Hcommit; reflexivity].
    simpl in H. inversion H. apply Nat.leb_le in Hk.
    repeat split; auto.
    apply assigned_differs_when_unset; assumption. }
  split; [exact Hcap|split].
  - intros Hsame k H. destruct (Hcap k H) as [Hdiff _]. contradiction.
  - intros Hset. split.
    + apply save_changes_patient_set. exact Hset.
    + intros k H. destruct (Hcap k H) as (_ & Hempty & _). congruence.
Qed.

Lemma cap_check_spares_unchanged_patient_witness :
  existing_count triple_P100 "P100" = 3%nat
  /\ (forall k,
        outcome (save_changes no_int clock_text (crono "A" "P100") triple_P100
                   (edit_form "Crono SC 20" None) now_10h "admin@cmc"
                   (world0 triple_P100))
        <> PatientCapExceeded k)
  /\ save_changes no_int clock_text (crono "A" "P100") triple_P100
       (edit_form "Crono SC 20" None) now_10h "admin@cmc" (world0 triple_P100)
     = commit (map (apply_update no_int clock_text (crono "A" "P100")
                      (edit_form "Crono SC 20" None) now_10h) triple_P100)
              (world0 triple_P100) []
  /\ assigned_patient (crono "C" "") (edit_form "Crono SC 20" (Some " P100 "))
     <> safe_str (Patient (crono "C" "")).
Proof.
  pose proof (cap_check_spares_unchanged_patient no_int clock_text
                (crono "A" "P100") triple_P100
                (edit_form "Crono SC 20" None) now_10h "admin@cmc"
                (world0 triple_P100)) as (_ & Hsame & Hset).
  pose proof (cap_check_spares_unchanged_patient no_int clock_text
                (crono "C" "") (crono "C" "" :: pair_P100)
                (edit_form "Crono SC 20" (Some " P100 ")) now_10h "admin@cmc"
                (world0 (crono "C" "" :: pair_P100))) as (Hcap & _).
  split; [reflexivity|]. split; [apply Hsame; reflexivity|].
  split; [apply Hset; reflexivity|].
  apply (Hcap 2%nat). reflexivity.
Defined.

(** C10.  An edit whose model text does not contain "CRONO SC" (in any
    letter case) leaves the Patient of every row as it was, in the table
    of the run and in the file: the handler goes straight to the save,
    and its writes do not touch the Patient column. *)
Theorem non_crono_edit_keeps_patients
  (py_int : string -> option Z) (strftime : Timestamp -> string)
  (row : Row) (df : Table) (f : Edit.Form) (now : Timestamp)
  (mail : string) (w : World) :
  is_crono_text (Edit.m f) = false ->
  map Patient (df_after (save_changes py_int strftime row df f now mail w))
    = map Patient df
  /\ (outcome (save_changes py_int strftime row df f now mail w) = Saved
      \/ outcome (save_changes py_int strftime row df f now mail w) = SaveFailed)
  /\ (file (world_after (save_changes py_int strftime row df f now mail w))
        = file w
      \/ exists t,
           file (world_after (save_changes py_int strftime row df f now mail w))
             = Some t
           /\ map Patient t = map Patient df).
Proof.
  intros Hmodel.
  rewrite (save_changes_not_crono py_int strftime row df f now mail w Hmodel).
  assert (Hpat : map Patient (map (apply_update py_int strftime row f now) df)
                 = map Patient df).
  { rewrite map_map. apply map_ext. intros r.
    apply apply_update_Patient. exact Hmodel. }
  destruct (commit_effect (map (apply_update py_int strftime row f now) df) w [])
    as (Hdf & _ & Hok & Hfail).
  split; [rewrite Hdf; exact Hpat|]. split; [apply commit_outcome|].
  destruct (disk_ok w).
  - right. destruct (Hok eq_refl) as (_ & Hfile & _). eauto.
  - left. destruct (Hfail eq_refl) as [_ Hw]. now rewrite Hw.
Qed.

Lemma non_crono_edit_keeps_patients_witness :
  map Patient
    (df_after (save_changes no_int clock_text other_P100
                 (pair_P100 ++ [other_P100])%list
                 (edit_form "Pump Y" (Some "P7")) now_10h "admin@cmc"
                 (world0 (pair_P100 ++ [other_P100])%list)))
  = [Str "P100"; Str "P100"; Str "P100"].
Proof.
  apply (proj1 (non_crono_edit_keeps_patients no_int clock_text other_P100
                  (pair_P100 ++ [other_P100])%list
                  (edit_form "Pump Y" (Some "P7")) now_10h "admin@cmc"
                  (world0 (pair_P100 ++ [other_P100])%list) eq_refl)).
Defined.

(** C3.  What the handler does when the row of a CRONO SC edit already
    has a patient and another, non-empty value is submitted for it: the
    submitted value is dropped, the lock branch of lines 305-310 is never
    taken, no notification is sent, and the rest of the edit is saved;
    only the stored patient stays as it was. *)
Theorem patient_change_attempt_is_saved
  (py_int : string -> option Z) (strftime : Timestamp -> string)
  (row : Row) (df : Table) (f : Edit.Form) (now : Timestamp)
  (mail : string) (w : World) (attempted : string) :
  is_crono_text (Edit.m f) = true ->
  is_empty (Patient row) = false ->
  Edit.session_patient f = Some attempted ->
  is_empty (Str attempted) = false ->
  PyStr.strip attempted <> safe_str (Patient row) ->
  save_changes py_int strftime row df f now mail w
    = commit (map (apply_update py_int strftime row f now) df) w []
  /\ outcome (save_changes py_int strftime row df f now mail w) <> PatientLocked
  /\ emails (save_changes py_int strftime row df f now mail w) = []
  /\ (disk_ok w = true ->
      outcome (save_changes py_int strftime row df f now mail w) = Saved
      /\ file (world_after (save_changes py_int strftime row df f now mail w))
         = Some (map (apply_update py_int strftime row f now) df))
  /\ (forall r,
        cell_eqb (ID r) (ID row) = true ->
        Patient (apply_update py_int strftime row f now r) = Patient row
        /\ Notes (apply_update py_int strftime row f now r) = Str (Edit.n f)).
Proof.
  intros Hcrono Hset Hsession Hattempt Hdiff.
  pose proof (save_changes_patient_set py_int strftime row df f now mail w Hset)
    as Hsave.
  destruct (commit_effect (map (apply_update py_int strftime row f now) df) w [])
    as (_ & Hmail & Hok & _).
  split; [exact Hsave|]. rewrite Hsave. split.
  - destruct (commit_outcome
                (map (apply_update py_int strftime row f now) df) w [])
      as [O | O]; rewrite O; discriminate.
  - split; [exact Hmail|]. split.
    + intros Hdisk. destruct (Hok Hdisk) as (Ho & Hf & _). auto.
    + intros r Hid. unfold apply_update. rewrite Hid. simpl.
      rewrite Hcrono, (assigned_when_patient_set row f Hset).
      split; [|reflexivity]. symmetry. apply patient_set_is_string. exact Hset.
Qed.

Lemma patient_change_attempt_is_saved_witness :
  outcome (save_changes no_int clock_text (crono "A" "P1") [crono "A" "P1"]
             (edit_form "Crono SC 20" (Some "P2")) now_10h "admin@cmc"
             (world0 [crono "A" "P1"])) = Saved
  /\ emails (save_changes no_int clock_text (crono "A" "P1") [crono "A" "P1"]
               (edit_form "Crono SC 20" (Some "P2")) now_10h "admin@cmc"
               (world0 [crono "A" "P1"])) = []
  /\ map Patient
       (df_after (save_changes no_int clock_text (crono "A" "P1")
                    [crono "A" "P1"] (edit_form "Crono SC 20" (Some "P2"))
                    now_10h "admin@cmc" (world0 [crono "A" "P1"])))
     = [Str "P1"]
  /\ map Notes
       (df_after (save_changes no_int clock_text (crono "A" "P1")
                    [crono "A" "P1"] (edit_form "Crono SC 20" (Some "P2"))
                    now_10h "admin@cmc" (world0 [crono "A" "P1"])))
     = [Str "checked"].
Proof.
  destruct (patient_change_attempt_is_saved no_int clock_text (crono "A" "P1")
              [crono "A" "P1"] (edit_form "Crono SC 20" (Some "P2")) now_10h
              "admin@cmc" (world0 [crono "A" "P1"]) "P2")
    as (Hsave & _ & Hmail & Hok & _);
    try reflexivity.
  { vm_compute. discriminate. }
  split; [apply Hok; reflexivity|]. split; [exact Hmail|].
  rewrite Hsave. split; reflexivity.
Defined.

(* ------------------------------------------------------------------ *)
(** ** The patient cap *)

Lemma existing_count_filter (df : Table) (p : string) :
  existing_count df p = List.length (filter (counts_for p) df).
Proof. reflexivity. Qed.

Lemma existing_count_app (df1 df2 : Table) (p : string) :
  existing_count (df1 ++ df2)%list p
  = (existing_count df1 p + existing_count df2 p)%nat.
Proof.
  rewrite !existing_count_filter, filter_app, length_app. reflexivity.
Qed.

(** Counting after a row-wise update [upd] that changes only the rows
    selected by [sel]. *)
Lemma count_after_update (upd : Row -> Row) (sel : Row -> bool) (p : string)
  (df : Table) :
  (forall r, sel r = false -> upd r = r) ->
  (existing_count (map upd df) p
   <= existing_count df p + List.length (filter sel df))%nat.
Proof.
  intros Hupd. rewrite !existing_count_filter.
  induction df as [|r df IH]; simpl; [lia|].
  destruct (sel r) eqn:Hsel.
  - destruct (counts_for p (upd r)), (counts_for p r); simpl; lia.
  - rewrite (Hupd r Hsel). destruct (counts_for p r); simpl; lia.
Qed.

Lemma count_not_increased (upd : Row -> Row) (p : string) (df : Table) :
  (forall r, In r df -> counts_for p (upd r) = true -> counts_for p r = true) ->
  (existing_count (map upd df) p <= existing_count df p)%nat.
Proof.
  rewrite !existing_count_filter.
  induction df as [|r df IH]; simpl; intros H; [lia|].
  assert (IH' := IH (fun x Hx => H x (or_intror Hx))).
  destruct (counts_for p (upd r)) eqn:Hu.
  - rewrite (H r (or_introl eq_refl) Hu). simpl. lia.
  - destruct (counts_for p r); simpl; lia.
Qed.

(** When at most one row is selected, a selected row of the table is
    the selected row. *)
Lemma selected_row_unique (sel : Row -> bool) (df : Table) (a b : Row) :
  (List.length (filter sel df) <= 1)%nat ->
  In a df -> In b df -> sel a = true -> sel b = true -> a = b.
Proof.
  induction df as [|r df IH]; simpl; intros Hlen Ha Hb Sa Sb; [contradiction|].
  assert (Hnone : List.length (filter sel df) = 0%nat ->
                  forall x, In x df -> sel x = true -> False).
  { intros Hz x Hx Sx.
    assert (In x (filter sel df)) as Hi by (apply filter_In; auto).
    destruct (filter sel df); [contradiction|discriminate]. }
  destruct (sel r) eqn:Sr; simpl in Hlen.
  - assert (Hz : List.length (filter sel df) = 0%nat) by lia.
    destruct Ha as [<- | Ha], Hb as [<- | Hb]; auto.
    + exfalso. apply (Hnone Hz b Hb Sb).
    + exfalso. apply (Hnone Hz a Ha Sa).
    + exfalso. apply (Hnone Hz a Ha Sa).
  - destruct Ha as [<- | Ha]; [congruence|].
    destruct Hb as [<- | Hb]; [congruence|].
    apply IH; auto.
Qed.

Lemma cell_eqb_left_refl (a b : Cell) :
  cell_eqb a b = true -> cell_eqb b b = true.
Proof.
  destruct a, b; simpl; try discriminate. intros _. apply String.eqb_refl.
Qed.

Section CapFacts.

Variable py_int : string -> option Z.
Variable strftime : Timestamp -> string.

Lemma apply_update_other (row : Row) (f : Edit.Form) (now : Timestamp) (r : Row) :
  cell_eqb (ID r) (ID row) = false ->
  apply_update py_int strftime row f now r = r.
Proof. intros H. unfold apply_update. now rewrite H. Qed.

Lemma counts_for_updated (row : Row) (f : Edit.Form) (now : Timestamp)
  (r : Row) (p : string) :
  cell_eqb (ID r) (ID row) = true ->
  counts_for p (apply_update py_int strftime row f now r)
  = is_crono_text (Edit.m f)
    && (is_crono_text (Edit.m f) && (assigned_patient row f =? p)%string
        || negb (is_crono_text (Edit.m f)) && cell_eqb (Patient r) (Str p)).
Proof.
  intros Hid. unfold counts_for, apply_update. rewrite Hid.
  cbn [Model Patient].
  change (model_is_crono (Str (Edit.m f))) with (is_crono_text (Edit.m f)).
  destruct (is_crono_text (Edit.m f)); cbn [andb orb negb cell_eqb];
    [|reflexivity].
  now rewrite orb_false_r.
Qed.

(** The edit path keeps the cap under the two side conditions. *)
Lemma edit_keeps_cap (row : Row) (df : Table) (f : Edit.Form) (now : Timestamp)
  (mail : string) (w : World) (p : string) :
  In row df ->
  (rows_with_id df (ID row) <= 1)%nat ->
  is_empty (Patient row) = true \/ model_is_crono (Model row) = true
  \/ is_crono_text (Edit.m f) = false ->
  (existing_count df p <= 2)%nat ->
  (existing_count
     (df_after (save_changes py_int strftime row df f now mail w)) p <= 2)%nat.
Proof.
  intros Hin Huniq Hkind Hbefore.
  set (upd := apply_update py_int strftime row f now).
  assert (Hcommit : df_after (commit (map upd df) w []) = map upd df)
    by apply commit_effect.
  destruct (is_crono_text (Edit.m f)) eqn:Hcrono.
  - destruct (is_empty (Patient row)) eqn:Hunset.
    + (* a new assignment *)
      rewrite (save_changes_patient_unset py_int strftime row df f now mail w
                 Hcrono Hunset).
      destruct (is_empty (Str (assigned_patient row f))); [exact Hbefore|].
      destruct (2 <=? existing_count df (assigned_patient row f))%nat eqn:Hk;
        [exact Hbefore|].
      apply Nat.leb_gt in Hk. fold upd. rewrite Hcommit.
      destruct (assigned_patient row f =? p)%string eqn:Hp.
      * apply String.eqb_eq in Hp. subst p.
        pose proof (count_after_update upd
                      (fun r => cell_eqb (ID r) (ID row))
                      (assigned_patient row f) df
                      (apply_update_other row f now)) as Hle.
        unfold rows_with_id in Huniq. lia.
      * etransitivity; [|exact Hbefore]. apply count_not_increased.
        intros r _ Hr. destruct (cell_eqb (ID r) (ID row)) eqn:Hid.
        -- unfold upd in Hr. rewrite (counts_for_updated row f now r p Hid) in Hr.
           rewrite Hcrono, Hp in Hr. discriminate.
        -- unfold upd in Hr. now rewrite (apply_update_other row f now r Hid) in Hr.
    + (* the patient stays *)
      rewrite (save_changes_patient_set py_int strftime row df f now mail w
                 Hunset).
      fold upd. rewrite Hcommit.
      destruct Hkind as [Hk | [Hk | Hk]]; try discriminate.
      etransitivity; [|exact Hbefore]. apply count_not_increased.
      intros r Hr Hcount. destruct (cell_eqb (ID r) (ID row)) eqn:Hid.
      * assert (r = row) as ->.
        { apply (selected_row_unique (fun x => cell_eqb (ID x) (ID row)) df);
            auto.
          apply (cell_eqb_left_refl (ID r)). exact Hid. }
        unfold upd in Hcount.
        rewrite (counts_for_updated row f now row p Hid) in Hcount.
        rewrite Hcrono in Hcount. simpl in Hcount.
        rewrite orb_false_r in Hcount.
        rewrite (assigned_when_patient_set row f Hunset) in Hcount.
        unfold counts_for. rewrite Hk.
        rewrite (patient_set_is_string row Hunset). exact Hcount.
      * unfold upd in Hcount.
        now rewrite (apply_update_other row f now r Hid) in Hcount.
  - (* the model is not CRONO SC *)
    rewrite (save_changes_not_crono py_int strftime row df f now mail w Hcrono).
    fold upd. rewrite Hcommit.
    etransitivity; [|exact Hbefore]. apply count_not_increased.
    intros r _ Hr. destruct (cell_eqb (ID r) (ID row)) eqn:Hid.
    + unfold upd in Hr. rewrite (counts_for_updated row f now r p Hid) in Hr.
      rewrite Hcrono in Hr. discriminate.
    + unfold upd in Hr. now rewrite (apply_update_other row f now r Hid) in Hr.
Qed.

Lemma add_keeps_cap (df : Table) (f : Add.Form) (user_client : option string)
  (now : Timestamp) (w : World) (p : string) :
  (existing_count df p <= 2)%nat ->
  (existing_count (df_after (add_pump strftime df f user_client now w)) p
   <= 2)%nat.
Proof.
  intros Hbefore. unfold add_pump.
  destruct (_ || _); [exact Hbefore|].
  destruct (is_crono_text (Add.new_model f)) eqn:Hcrono.
  - destruct (is_empty (Str (new_patient f))); [exact Hbefore|].
    destruct (2 <=? existing_count df (new_patient f))%nat eqn:Hk;
      [exact Hbefore|].
    apply Nat.leb_gt in Hk.
    destruct (commit_effect
                (df ++ [new_row strftime f user_client now
                          (Str (new_patient f))])%list
                w []) as (-> & _).
    rewrite existing_count_app. unfold existing_count at 2.
    cbn [filter new_row Model Patient cell_eqb].
    change (model_is_crono (Str (Add.new_model f)))
      with (is_crono_text (Add.new_model f)).
    rewrite Hcrono. cbn [andb].
    destruct (new_patient f =? p)%string eqn:Hp; cbn [List.length]; [|lia].
    apply String.eqb_eq in Hp. subst p. lia.
  - destruct (commit_effect
                (df ++ [new_row strftime f user_client now NA])%list w [])
      as (-> & _).
    rewrite existing_count_app. unfold existing_count at 2.
    cbn [filter new_row Model Patient cell_eqb].
    rewrite andb_false_r. cbn [List.length]. lia.
Qed.

End CapFacts.

(** A blank text does not name a CRONO SC model. *)
Lemma lstrip_blank_not_crono (txt : string) :
  PyStr.lstrip txt = "" -> is_crono_text txt = false.
Proof.
  induction txt as [|ch txt IH]; [reflexivity|]. simpl.
  destruct (PyStr.isspace ch) eqn:Hsp; [|discriminate].
  intros Ht. specialize (IH Ht). unfold is_crono_text in *.
  change (PyStr.upper (String ch txt))
    with (String (PyStr.upper_char ch) (PyStr.upper txt)).
  cbn [PyStr.contains]. rewrite IH, orb_false_r.
  assert (PyStr.upper_char ch <> "C"%char) as Hc.
  { intros E. unfold PyStr.upper_char in E.
    destruct ch as [[] [] [] [] [] [] [] []]; vm_compute in Hsp, E;
      discriminate. }
  cbn [PyStr.startswith].
  destruct (Ascii.eqb_spec "C"%char (PyStr.upper_char ch));
    [congruence|reflexivity].
Qed.

Lemma rstrip_blank_lstrip (txt : string) :
  PyStr.rstrip txt = "" -> PyStr.lstrip txt = "".
Proof.
  induction txt as [|ch txt IH]; [reflexivity|]. simpl.
  destruct (PyStr.isspace ch); simpl; [|discriminate].
  destruct (PyStr.rstrip txt =? "")%string eqn:E; [|discriminate].
  intros _. apply IH. now apply String.eqb_eq.
Qed.

Lemma lstrip_idempotent (txt : string) :
  PyStr.lstrip (PyStr.lstrip txt) = PyStr.lstrip txt.
Proof.
  induction txt as [|ch txt IH]; [reflexivity|]. simpl.
  destruct (PyStr.isspace ch) eqn:Hsp; [exact IH|]. simpl. now rewrite Hsp.
Qed.

Lemma blank_is_not_crono (txt : string) :
  PyStr.strip txt = "" -> is_crono_text txt = false.
Proof.
  intros Hs. apply lstrip_blank_not_crono. unfold PyStr.strip in Hs.
  apply rstrip_blank_lstrip in Hs. now rewrite lstrip_idempotent in Hs.
Qed.

(** C2 (amended).  Adding a pump never takes the number of CRONO SC
    rows that share a patient value from at most 2 to more than 2, and
    neither does an edit of a row of the table, provided that no other
    row has the edited row's id and that the edit does not turn a row
    of another model that already carries a patient into a CRONO SC
    row.  A mutation that newly assigns a patient (a new CRONO SC pump,
    or a CRONO SC edit of a row without patient) to a value already
    carried by 2 or more CRONO SC rows is rejected with the cap error and
    changes neither the table nor the store.  With two CRONO SC rows of
    patient "P100", adding a third CRONO SC pump for "P100" is
    rejected. *)
Theorem patient_cap_on_new_assignments
  (py_int : string -> option Z) (strftime : Timestamp -> string) :
  (forall df f user_client now w p,
     (existing_count df p <= 2)%nat ->
     (existing_count (df_after (add_pump strftime df f user_client now w)) p
      <= 2)%nat)
  /\ (forall df f user_client now w,
        (PyStr.strip (Add.new_id f) =? "")%string
        || (PyStr.strip (Add.new_model f) =? "")%string = false ->
        is_crono_text (Add.new_model f) = true ->
        is_empty (Str (Add.patient_input f)) = false ->
        (2 <= existing_count df (Add.patient_input f))%nat ->
        add_pump strftime df f user_client now w
        = mkEffect (PatientCapExceeded (existing_count df (Add.patient_input f)))
                   df w [])
  /\ (forall row df f now mail w p,
        In row df ->
        (rows_with_id df (ID row) <= 1)%nat ->
        is_empty (Patient row) = true \/ model_is_crono (Model row) = true
        \/ is_crono_text (Edit.m f) = false ->
        (existing_count df p <= 2)%nat ->
        (existing_count
           (df_after (save_changes py_int strftime row df f now mail w)) p
         <= 2)%nat)
  /\ (forall row df f now mail w,
        is_crono_text (Edit.m f) = true ->
        is_empty (Patient row) = true ->
        is_empty (Str (assigned_patient row f)) = false ->
        (2 <= existing_count df (assigned_patient row f))%nat ->
        save_changes py_int strftime row df f now mail w
        = mkEffect (PatientCapExceeded
                      (existing_count df (assigned_patient row f))) df w [])
  /\ (forall df f user_client now w,
        existing_count df "P100" = 2%nat ->
        (PyStr.strip (Add.new_id f) =? "")%string = false ->
        is_crono_text (Add.new_model f) = true ->
        Add.patient_input f = "P100" ->
        add_pump strftime df f user_client now w
        = mkEffect (PatientCapExceeded 2) df w []).
Proof.
  assert (Hadd : forall df f user_client now w,
        (PyStr.strip (Add.new_id f) =? "")%string
        || (PyStr.strip (Add.new_model f) =? "")%string = false ->
        is_crono_text (Add.new_model f) = true ->
        is_empty (Str (Add.patient_input f)) = false ->
        (2 <= existing_count df (Add.patient_input f))%nat ->
        add_pump strftime df f user_client now w
        = mkEffect (PatientCapExceeded (existing_count df (Add.patient_input f)))
                   df w []).
  { intros df f user_client now w Hgiven Hcrono Hpatient Hk.
    unfold add_pump, new_patient. rewrite Hgiven, Hcrono. simpl negb.
    cbv iota. rewrite Hpatient.
    apply Nat.leb_le in Hk. rewrite Hk. reflexivity. }
  split; [|split; [exact Hadd|split; [|split]]].
  - intros df f user_client now w p. apply add_keeps_cap.
  - intros row df f now mail w p. apply edit_keeps_cap.
  - intros row df f now mail w Hcrono Hunset Hblank Hk.
    rewrite (save_changes_patient_unset py_int strftime row df f now mail w
               Hcrono Hunset).
    rewrite Hblank. apply Nat.leb_le in Hk. rewrite Hk. reflexivity.
  - intros df f user_client now w Hcount Hid Hcrono Hpatient.
    rewrite <- Hcount, <- Hpatient. apply Hadd.
    + rewrite Hid. simpl. apply not_true_is_false. intros Hmodel.
      apply String.eqb_eq in Hmodel.
      rewrite (blank_is_not_crono _ Hmodel) in Hcrono. discriminate.
    + exact Hcrono.
    + rewrite Hpatient. reflexivity.
    + rewrite Hpatient, Hcount. lia.
Qed.

Lemma patient_cap_on_new_assignments_witness :
  add_pump clock_text pair_P100 (add_form "D" "CRONO SC 20" "P100")
           (Some "Clinic A") now_10h (world0 pair_P100)
  = mkEffect (PatientCapExceeded 2) pair_P100 (world0 pair_P100) []
  /\ save_changes no_int clock_text (crono "C" "") (crono "C" "" :: pair_P100)
       (edit_form "Crono SC 20" (Some " P100 ")) now_10h "admin@cmc"
       (world0 (crono "C" "" :: pair_P100))
     = mkEffect (PatientCapExceeded 2) (crono "C" "" :: pair_P100)
                (world0 (crono "C" "" :: pair_P100)) []
  /\ add_pump clock_text triple_P100 (add_form "E" "crono sc" "P100")
              (Some "Clinic A") now_10h (world0 triple_P100)
     = mkEffect (PatientCapExceeded 3) triple_P100 (world0 triple_P100) []
  /\ (existing_count
        (df_after (add_pump clock_text [crono "A" "P100"]
                     (add_form "B" "crono sc" "P100") (Some "Clinic A")
                     now_10h (world0 [crono "A" "P100"]))) "P100" <= 2)%nat
  /\ (existing_count
        (df_after (save_changes no_int clock_text (crono "C" "")
                     [crono "A" "P100"; crono "C" ""]
                     (edit_form "Crono SC 20" (Some "P100")) now_10h
                     "admin@cmc" (world0 [crono "A" "P100"; crono "C" ""])))
        "P100" <= 2)%nat.
Proof.
  destruct (patient_cap_on_new_assignments no_int clock_text)
    as (Hadd & Hadd_rejects & Hedit & Hedit_rejects & Hscenario).
  split; [|split; [|split; [|split]]].
  - apply Hscenario; reflexivity.
  - apply (Hedit_rejects (crono "C" "") (crono "C" "" :: pair_P100)
             (edit_form "Crono SC 20" (Some " P100 ")) now_10h "admin@cmc"
             (world0 (crono "C" "" :: pair_P100)));
      reflexivity.
  - apply (Hadd_rejects triple_P100 (add_form "E" "crono sc" "P100")
             (Some "Clinic A") now_10h (world0 triple_P100));
      try reflexivity.
    vm_compute. lia.
  - apply Hadd. vm_compute. lia.
  - apply Hedit.
    + right; left; reflexivity.
    + vm_compute. lia.
    + left. reflexivity.
    + vm_compute. lia.
Defined.

(** Two accepted edits that take a patient from at most 2 CRONO SC rows
    to 3: the model of a third row that already carries the patient is
    changed to CRONO SC; and a row is edited whose id two other rows
    share, so that the update by id rewrites the patient of all three. *)
Lemma patient_cap_counterexample :
  (existing_count (pair_P100 ++ [other_P100])%list "P100" = 2%nat
   /\ outcome (save_changes no_int clock_text other_P100
                 (pair_P100 ++ [other_P100])%list
                 (edit_form "CRONO SC" None) now_10h "admin@cmc"
                 (world0 (pair_P100 ++ [other_P100])%list)) = Saved
   /\ existing_count
        (df_after (save_changes no_int clock_text other_P100
                     (pair_P100 ++ [other_P100])%list
                     (edit_form "CRONO SC" None) now_10h "admin@cmc"
                     (world0 (pair_P100 ++ [other_P100])%list))) "P100"
      = 3%nat)
  /\ (existing_count same_id_table "P1" = 1%nat
      /\ outcome (save_changes no_int clock_text (crono "A" "P1") same_id_table
                    (edit_form "Crono SC 20" None) now_10h "admin@cmc"
                    (world0 same_id_table)) = Saved
      /\ existing_count
           (df_after (save_changes no_int clock_text (crono "A" "P1")
                        same_id_table (edit_form "Crono SC 20" None) now_10h
                        "admin@cmc" (world0 same_id_table))) "P1"
         = 3%nat).
Proof.
  repeat split; vm_compute; reflexivity.
Qed.

(* ================================================================== *)
(** * Further properties of the code *)

(* ------------------------------------------------------------------ *)
(** ** Loading *)

Lemma normalize_status_in_options (c : Cell) :
  exists s, normalize_status c = Str s /\ In s STATUS_OPTIONS.
Proof.
  unfold normalize_status.
  set (mapped := lower_map_get _).
  destruct (in_strings mapped STATUS_OPTIONS) eqn:H.
  - exists mapped. split; [reflexivity|].
    unfold in_strings in H. apply existsb_exists in H.
    destruct H as (o & Ho & Heq). apply String.eqb_eq in Heq. now subst.
  - exists "In stock". split; [reflexivity|]. simpl. auto.
Qed.

Lemma normalize_status_fixed (c : Cell) :
  normalize_status (normalize_status c) = normalize_status c.
Proof.
  destruct (normalize_status_in_options c) as (s & -> & Hs).
  simpl in Hs. destruct Hs as [<- | [<- | [<- | []]]]; vm_compute; reflexivity.
Qed.

Lemma compute_expiry_stable
  (parse_datetime : bool -> string -> option Timestamp) (row : Row) :
  compute_expiry parse_datetime
    (set_Expiry (compute_expiry parse_datetime row) row)
  = compute_expiry parse_datetime row.
Proof.
  destruct (compute_expiry_cases parse_datetime row) as [H | [t H]].
  - rewrite H. revert H. unfold compute_expiry. simpl.
    destruct (to_datetime_cases parse_datetime false (Expiry row))
      as [E | [t E]]; rewrite E; simpl; [|discriminate].
    destruct (parse_date_from_id_cases parse_datetime (ID row))
      as [I | [t I]]; rewrite I; simpl; [reflexivity|discriminate].
  - rewrite H. reflexivity.
Qed.

Lemma load_rows_fixed
  (parse_datetime : bool -> string -> option Timestamp) (raw : Table) :
  load_rows parse_datetime (load_rows parse_datetime raw)
  = load_rows parse_datetime raw.
Proof.
  unfold load_rows. rewrite map_map. apply map_ext. intros r.
  cbn [Status set_Status set_Expiry].
  rewrite normalize_status_fixed.
  set (r1 := set_Status (normalize_status (Status r)) r).
  change (compute_expiry parse_datetime
            (set_Status (normalize_status (Status r))
               (set_Expiry (compute_expiry parse_datetime r1) r1)))
    with (compute_expiry parse_datetime
            (set_Expiry (compute_expiry parse_datetime r1) r1)).
  rewrite compute_expiry_stable. reflexivity.
Qed.




(* ------------------------------------------------------------------ *)
(** ** The store *)





(** X5.  [load_db] without a backing file and with nothing cached:
    when the file can be written it is created empty and the empty table
    is returned and cached; when it cannot, the error of the write
    escapes [load_db]. *)
Theorem load_db_without_file
  (parse_datetime : bool -> string -> option Timestamp) (w : World) :
  file w = None -> cache w = None ->
  (disk_ok w = true ->
   load_db parse_datetime w = Ok ([], mkWorld (Some []) (Some []) true))
  /\ (disk_ok w = false -> load_db parse_datetime w = Raise IOError).
Proof.
  intros Hfile Hcache. unfold load_db, to_excel. rewrite Hfile, Hcache.
  split; intros Hdisk; rewrite Hdisk; simpl; [|reflexivity].
  rewrite ?Hcache, ?Hdisk. reflexivity.
Qed.

Lemma load_db_without_file_witness :
  load_db slash_date (mkWorld None None true)
  = Ok ([], mkWorld (Some []) (Some []) true)
  /\ load_db slash_date (mkWorld None None false) = Raise IOError.
Proof.
  split.
  - apply (proj1 (load_db_without_file slash_date (mkWorld None None true)
                    eq_refl eq_refl)). reflexivity.
  - apply (proj2 (load_db_without_file slash_date (mkWorld None None false)
                    eq_refl eq_refl)). reflexivity.
Defined.

(* ------------------------------------------------------------------ *)
(** ** Identifiers *)

Lemma rstrip_app (a b : string) :
  PyStr.rstrip b <> "" -> PyStr.rstrip (a ++ b) = a ++ PyStr.rstrip b.
Proof.
  intros Hb. induction a as [|ch a IH]; [reflexivity|].
  cbn [append PyStr.rstrip]. rewrite IH.
  destruct (a ++ PyStr.rstrip b) eqn:E.
  - destruct a; [simpl in E; contradiction|discriminate].
  - rewrite andb_false_r. reflexivity.
Qed.

Lemma no_space_rstrip (txt : string) :
  no_space txt = true -> PyStr.rstrip txt = txt.
Proof.
  induction txt as [|ch txt IH]; [reflexivity|].
  cbn [no_space PyStr.rstrip]. intros H. apply andb_true_iff in H.
  destruct H as [Hch Htxt]. apply negb_true_iff in Hch.
  rewrite Hch, (IH Htxt). reflexivity.
Qed.

Lemma no_space_lstrip (txt : string) :
  no_space txt = true -> PyStr.lstrip txt = txt.
Proof.
  destruct txt as [|ch txt]; [reflexivity|].
  cbn [no_space PyStr.lstrip]. intros H. apply andb_true_iff in H.
  destruct H as [Hch _]. apply negb_true_iff in Hch. now rewrite Hch.
Qed.

Lemma no_space_strip (txt : string) :
  no_space txt = true -> PyStr.strip txt = txt.
Proof.
  intros H. unfold PyStr.strip. rewrite (no_space_lstrip txt H).
  now apply no_space_rstrip.
Qed.

Lemma split_hyphen_skip (sep : ascii -> bool) (ch : ascii) (rest : string) :
  sep ch = false ->
  PyStr.split_hyphen sep (String ch rest)
  = PyStr.push_head ch (PyStr.split_hyphen sep rest).
Proof.
  intros H. destruct rest as [|b [|c rest]]; cbn [PyStr.split_hyphen];
    try reflexivity.
  rewrite H. reflexivity.
Qed.

Lemma split_hyphen_not_nil (sep : ascii -> bool) (txt : string) :
  PyStr.split_hyphen sep txt <> [].
Proof.
  assert (Hpush : forall ch parts, PyStr.push_head ch parts <> [])
    by (intros ch [|p ps]; discriminate).
  destruct txt as [|a [|b [|c rest]]]; cbn [PyStr.split_hyphen];
    try discriminate; try apply Hpush.
  destruct (_ && _); [discriminate|apply Hpush].
Qed.

Lemma no_space_single_part (txt : string) :
  no_space txt = true -> PyStr.split_hyphen PyStr.isspace txt = [txt].
Proof.
  induction txt as [|ch txt IH]; [reflexivity|].
  cbn [no_space]. intros H. apply andb_true_iff in H.
  destruct H as [Hch Htxt]. apply negb_true_iff in Hch.
  rewrite (split_hyphen_skip _ ch txt Hch), (IH Htxt). reflexivity.
Qed.

Lemma split_after_prefix (prefix rest : string) :
  no_space prefix = true ->
  PyStr.split_hyphen PyStr.isspace (prefix ++ " - " ++ rest)
  = prefix :: PyStr.split_hyphen PyStr.isspace rest.
Proof.
  induction prefix as [|ch prefix IH]; [reflexivity|].
  cbn [no_space]. intros H. apply andb_true_iff in H.
  destruct H as [Hch Hp]. apply negb_true_iff in Hch.
  change (String ch prefix ++ " - " ++ rest)
    with (String ch (prefix ++ " - " ++ rest)).
  rewrite (split_hyphen_skip _ ch _ Hch), (IH Hp). reflexivity.
Qed.

Lemma last_cons_not_nil {A} (x d : A) (l : list A) :
  l <> [] -> last (x :: l) d = last l d.
Proof. destruct l; [contradiction|reflexivity]. Qed.



(* ------------------------------------------------------------------ *)
(** ** The four-year offset *)

(** X7.  The expiry derived from an id whose date D is a calendar date:
    it is a calendar date of the year of D plus 4, in the same month and
    at the same time of day; the day is that of D, except that 29
    February becomes 28 February when the target year is not a leap
    year.  It is later than D. *)
Theorem derived_expiry_is_calendar_date
  (parse_datetime : bool -> string -> option Timestamp)
  (row : Row) (D : Timestamp) :
  to_datetime parse_datetime false (Expiry row) = NaT ->
  parse_date_from_id parse_datetime (ID row) = Ts D ->
  valid_date (ts_date D) ->
  exists E,
    compute_expiry parse_datetime row = Ts E
    /\ valid_date (ts_date E)
    /\ year (ts_date E) = year (ts_date D) + 4
    /\ month (ts_date E) = month (ts_date D)
    /\ ts_time E = ts_time D
    /\ (day (ts_date E) = day (ts_date D)
        \/ (month (ts_date D) = 2 /\ day (ts_date D) = 29
            /\ day (ts_date E) = 28
            /\ isleap (year (ts_date D) + 4) = false))
    /\ ts_ltb D E = true.
Proof.
  intros Hexp Hid Hvalid.
  exists (relativedelta_add FIXED_EXPIRY_YEARS 0 D). split.
  { unfold compute_expiry. rewrite Hexp, Hid. reflexivity. }
  destruct D as [[yv mv dv] tv]. unfold valid_date in *.
  cbn [ts_date ts_time year month day] in *.
  destruct Hvalid as [Hm Hd].
  unfold relativedelta_add, FIXED_EXPIRY_YEARS, ts_ltb, date_ltb, date_eqb.
  cbn [ts_date ts_time year month day Z.eqb].
  assert (Hlen : monthrange (yv + 4) mv = monthrange yv mv
                 \/ (mv = 2 /\ monthrange yv mv = 29
                     /\ monthrange (yv + 4) mv = 28
                     /\ isleap (yv + 4) = false)
                 \/ (mv = 2 /\ monthrange yv mv = 28
                     /\ monthrange (yv + 4) mv = 29)).
  { unfold monthrange. split_month Hm; auto.
    destruct (isleap yv), (isleap (yv + 4));
      first [ left; reflexivity
            | right; left; repeat split; reflexivity
            | right; right; repeat split; reflexivity ]. }
  assert (Hpos : 28 <= monthrange (yv + 4) mv).
  { unfold monthrange. split_month Hm; try lia.
    destruct (isleap (yv + 4)); lia. }
  repeat split; try lia.
  - destruct Hlen as [H | [(Hmv & H1 & H2 & Hleap) | (_ & H1 & H2)]].
    + left. lia.
    + destruct (Z.eq_dec dv 29) as [->|Hne]; [right; repeat split; auto; lia|].
      left. lia.
    + left. lia.
Qed.

Lemma derived_expiry_is_calendar_date_witness :
  exists E,
    compute_expiry slash_date (set_ID (Str "LOT - 29/02/2096") blank_row) = Ts E
    /\ ts_date E = mkDate 2100 2 28.
Proof.
  destruct (derived_expiry_is_calendar_date slash_date
              (set_ID (Str "LOT - 29/02/2096") blank_row) (midnight 2096 2 29))
    as (E & Hc & _ & Hy & Hm & _ & Hd & _).
  - reflexivity.
  - reflexivity.
  - unfold valid_date; simpl; lia.
  - exists E. split; [exact Hc|].
    destruct E as [[ye me de] te]. simpl in *.
    destruct Hd as [Hd | (_ & _ & Hd & _)].
    + assert (Ts (mkTs (mkDate ye me de) te) = Ts (midnight 2100 2 28)) as Heq
        by (rewrite <- Hc; reflexivity).
      inversion Heq. reflexivity.
    + subst. reflexivity.
Defined.

(* ------------------------------------------------------------------ *)
(** ** The scan: who is notified, and about what *)

Lemma check_row_visible
  (parse_datetime : bool -> string -> option Timestamp) (now : Timestamp)
  (u : User) (row : Row) (call : EmailCall) :
  In call (check_row parse_datetime now u row) ->
  visible u row = true /\ to_email call = recipient u.
Proof.
  unfold check_row.
  destruct (to_datetime parse_datetime false (Expiry row)) as [|exp|txt].
  - destruct (_ =? _)%string; [|contradiction].
    destruct (visible u row); [|contradiction].
    intros [<- | []]. auto.
  - destruct (negb _); [contradiction|].
    destruct (expiry_subject now exp); [|contradiction].
    destruct (visible u row); [|contradiction].
    intros [<- | []]. auto.
  - destruct (_ =? _)%string; [|contradiction].
    destruct (visible u row); [|contradiction].
    intros [<- | []]. auto.
Qed.

Lemma check_no_patient_visible (u : User) (r : Row) (call : EmailCall) :
  In call (check_no_patient u r) ->
  visible u r = true /\ to_email call = recipient u.
Proof.
  unfold check_no_patient.
  destruct (is_empty (Patient r)); [|contradiction].
  destruct (visible u r); [|contradiction].
  intros [<- | []]. auto.
Qed.

Lemma check_single_pump_sample (u : User) (cronos : Table) (patient : string)
  (call : EmailCall) :
  In call (check_single_pump u cronos patient) ->
  exists sample,
    rows_of_patient cronos patient = [sample]
    /\ is_empty (Str patient) = false
    /\ visible u sample = true
    /\ call = single_pump_email u patient sample.
Proof.
  unfold check_single_pump.
  destruct (is_empty (Str patient)); [contradiction|].
  destruct (rows_of_patient cronos patient) as [|sample [|other rest]];
    try contradiction.
  destruct (visible u sample) eqn:Hvis; [|contradiction].
  intros [<- | []]. exists sample. auto.
Qed.

Lemma rows_of_patient_in (cronos : Table) (patient : string) (r : Row) :
  In r (rows_of_patient cronos patient) ->
  In r cronos /\ Patient r = Str patient.
Proof.
  unfold rows_of_patient. intros H. apply filter_In in H.
  destruct H as [Hin Heq]. split; [exact Hin|].
  destruct (Patient r) as [|p]; simpl in Heq; [discriminate|].
  apply String.eqb_eq in Heq. now subst.
Qed.



Lemma six_months_later (now exp : Timestamp) :
  1 <= month (ts_date now) ->
  ts_ltb (relativedelta_add 0 6 now) exp = true ->
  date_leb (ts_date exp) (ts_date now) = false
  /\ ts_leb exp (relativedelta_add 0 1 now) = false
  /\ ts_leb exp (relativedelta_add 0 6 now) = false.
Proof.
  destruct now as [[yn mn dn] tn], exp as [[ye me de] te]. intros Hm H.
  repeat split; order_solve.
Qed.

(** X9.  What the first loop of the scan stays silent about: a row
    whose expiry is set and whose status is neither In use nor In
    stock; a row whose expiry lies more than 6 months ahead; and a row
    without expiry whose status is not In use. *)
Theorem scan_silent_cases
  (parse_datetime : bool -> string -> option Timestamp) (now : Timestamp)
  (u : User) (row : Row) :
  (forall exp,
     to_datetime parse_datetime false (Expiry row) = Ts exp ->
     in_strings (PyStr.strip (py_str (Status row))) ["In use"; "In stock"] = false ->
     check_row parse_datetime now u row = [])
  /\ (forall exp,
        to_datetime parse_datetime false (Expiry row) = Ts exp ->
        valid_date (ts_date now) ->
        ts_ltb (relativedelta_add 0 6 now) exp = true ->
        check_row parse_datetime now u row = [])
  /\ (to_datetime parse_datetime false (Expiry row) = NaT ->
      PyStr.lower (PyStr.strip (py_str (Status row))) <> "in use" ->
      check_row parse_datetime now u row = []).
Proof.
  split; [|split].
  - intros exp Hexp Hstatus. unfold check_row. now rewrite Hexp, Hstatus.
  - intros exp Hexp Hvalid Hfar. unfold check_row. rewrite Hexp.
    destruct (negb _); [reflexivity|].
    assert (Hm : 1 <= month (ts_date now)) by (destruct Hvalid; lia).
    destruct (six_months_later now exp Hm Hfar) as (H0 & H1 & H6).
    unfold expiry_subject. rewrite H0, H1, H6, !andb_false_r. reflexivity.
  - intros Hexp Hstatus. unfold check_row. rewrite Hexp.
    apply String.eqb_neq in Hstatus. now rewrite Hstatus.
Qed.

Lemma scan_silent_cases_witness :
  check_row slash_date now_10h admin
    (pump (Str "PX-20") (Str "Pump X") (Str "Out of use") NA
          (Ts (midnight 2020 1 1))) = []
  /\ check_row slash_date now_10h admin (row_expiring (midnight 2027 5 5)) = []
  /\ check_row slash_date now_10h admin
       (pump (Str "PX-21") (Str "Pump X") (Str "In stock") NA NaT) = [].
Proof.
  split; [|split].
  - apply (proj1 (scan_silent_cases slash_date now_10h admin
                    (pump (Str "PX-20") (Str "Pump X") (Str "Out of use") NA
                          (Ts (midnight 2020 1 1)))) (midnight 2020 1 1));
      reflexivity.
  - apply (proj1 (proj2 (scan_silent_cases slash_date now_10h admin
                           (row_expiring (midnight 2027 5 5))))
             (midnight 2027 5 5)).
    + reflexivity.
    + unfold valid_date; simpl; lia.
    + reflexivity.
  - apply (proj2 (proj2 (scan_silent_cases slash_date now_10h admin
                           (pump (Str "PX-21") (Str "Pump X") (Str "In stock")
                                 NA NaT)))).
    + reflexivity.
    + vm_compute. discriminate.
Defined.



Lemma insert_key_in (p k : string) (l : list string) :
  In p (insert_key k l) <-> p = k \/ In p l.
Proof.
  induction l as [|x l IH]; simpl; [intuition|].
  destruct (String.compare k x) eqn:C; simpl.
  - apply String.compare_eq_iff in C. subst. intuition.
  - intuition.
  - rewrite IH. intuition.
Qed.

Lemma groupby_Patient_keys_in (p : string) (t : Table) :
  In p (groupby_Patient_keys t) <-> exists r, In r t /\ Patient r = Str p.
Proof.
  induction t as [|r t IH]; simpl.
  - split; [contradiction|]. intros (r & [] & _).
  - destruct (Patient r) as [|q] eqn:Hq.
    + rewrite IH. split.
      * intros (x & Hx & Hp). exists x. auto.
      * intros (x & [<- | Hx] & Hp); [congruence|]. exists x. auto.
    + rewrite insert_key_in, IH. split.
      * intros [-> | (x & Hx & Hp)]; [exists r; auto|]. exists x. auto.
      * intros (x & [<- | Hx] & Hp).
        -- left. congruence.
        -- right. exists x. auto.
Qed.

Lemma filter_filter {A} (f g : A -> bool) (l : list A) :
  filter f (filter g l) = filter (fun x => g x && f x) l.
Proof.
  induction l as [|x l IH]; simpl; [reflexivity|].
  destruct (g x); simpl; [destruct (f x)|]; now rewrite IH.
Qed.

Lemma rows_of_patient_count (df : Table) (p : string) :
  List.length (rows_of_patient (cronos_of df) p) = existing_count df p.
Proof.
  unfold rows_of_patient, cronos_of, existing_count. now rewrite filter_filter.
Qed.

Lemma check_row_not_single_pump
  (parse_datetime : bool -> string -> option Timestamp) (now : Timestamp)
  (u : User) (row : Row) (p : string) (call : EmailCall) :
  In call (check_row parse_datetime now u row) ->
  is_single_pump_alert p call = false.
Proof.
  unfold check_row.
  destruct (to_datetime parse_datetime false (Expiry row)) as [|exp|txt].
  - destruct (_ =? _)%string; [|contradiction].
    destruct (visible u row); [|contradiction].
    intros [<- | []]. reflexivity.
  - destruct (negb _); [contradiction|].
    destruct (expiry_subject now exp); [|contradiction].
    destruct (visible u row); [|contradiction].
    intros [<- | []]. reflexivity.
  - destruct (_ =? _)%string; [|contradiction].
    destruct (visible u row); [|contradiction].
    intros [<- | []]. reflexivity.
Qed.



(* ------------------------------------------------------------------ *)
(** ** The warnings panel *)

Lemma subject_within_six_months (now exp : Timestamp) :
  1 <= month (ts_date now) ->
  expiry_subject now exp <> None ->
  ts_leb exp (relativedelta_add 0 6 now) = true.
Proof.
  intros Hm. unfold expiry_subject.
  destruct (date_leb (ts_date exp) (ts_date now)) eqn:H0.
  - intros _. destruct now as [[yn mn dn] tn], exp as [[ye me de] te].
    order_solve.
  - destruct (ts_ltb now exp && ts_leb exp (relativedelta_add 0 1 now)) eqn:H1.
    + intros _. apply andb_true_iff in H1. destruct H1 as [_ H1].
      destruct now as [[yn mn dn] tn], exp as [[ye me de] te].
      order_solve.
    + destruct (ts_ltb now exp && ts_leb exp (relativedelta_add 0 6 now)) eqn:H6.
      * intros _. apply andb_true_iff in H6. tauto.
      * intros H. contradiction.
Qed.

Lemma panel_row_in
  (parse_datetime : bool -> string -> option Timestamp) (now : Timestamp)
  (dfw : Table) (r : Row) (label : string) :
  In r dfw ->
  In (r, label) (panel_row parse_datetime now r) ->
  In (r, label) (render_warnings parse_datetime now dfw).
Proof.
  intros Hin H. unfold render_warnings. apply in_or_app. left.
  apply in_flat_map. exists r. auto.
Qed.

Lemma panel_label_origin
  (parse_datetime : bool -> string -> option Timestamp) (now : Timestamp)
  (dfw : Table) (r : Row) (label : string) :
  In (r, label) (render_warnings parse_datetime now dfw) ->
  (label = "Expiry" \/ label = "Missing patient") ->
  In (r, label) (panel_row parse_datetime now r).
Proof.
  intros H Hlabel. unfold render_warnings in H.
  apply in_app_or in H. destruct H as [H | H].
  - apply in_flat_map in H. destruct H as (x & _ & Hx).
    assert (x = r) as ->; [|exact Hx].
    unfold panel_row in Hx.
    destruct (cond_missing_patient x);
      [|destruct (cond_expiry_soon parse_datetime now x)];
      simpl in Hx; try contradiction;
      destruct Hx as [Hx | []]; now inversion Hx.
  - exfalso. apply in_flat_map in H. destruct H as (p & _ & Hp).
    unfold panel_single in Hp.
    destruct (is_empty (Str p)); [contradiction|].
    destruct (rows_of_patient _ p) as [|sample [|other rest]]; try contradiction.
    destruct Hp as [Hp | []]. inversion Hp as [[Hr Hl]].
    destruct Hlabel as [-> | ->]; discriminate Hl.
Qed.



(* ------------------------------------------------------------------ *)
(** ** The edit path *)

Section EditFacts.

Variable py_int : string -> option Z.
Variable strftime : Timestamp -> string.

Lemma save_changes_cases (row : Row) (df : Table) (f : Edit.Form)
  (now : Timestamp) (mail : string) (w : World) :
  save_changes py_int strftime row df f now mail w
    = commit (map (apply_update py_int strftime row f now) df) w []
  \/ save_changes py_int strftime row df f now mail w
     = mkEffect PatientRequired df w []
  \/ save_changes py_int strftime row df f now mail w
     = mkEffect (PatientCapExceeded
                   (existing_count df (assigned_patient row f))) df w [].
Proof.
  destruct (is_crono_text (Edit.m f)) eqn:Hcrono;
    [|left; now apply save_changes_not_crono].
  destruct (is_empty (Patient row)) eqn:Hset;
    [|left; now apply save_changes_patient_set].
  rewrite (save_changes_patient_unset py_int strftime row df f now mail w
             Hcrono Hset).
  destruct (is_empty (Str (assigned_patient row f))); [right; left; reflexivity|].
  destruct (2 <=? existing_count df (assigned_patient row f))%nat;
    [right; right; reflexivity|left; reflexivity].
Qed.

Lemma apply_update_ID (row : Row) (f : Edit.Form) (now : Timestamp) (r : Row) :
  ID (apply_update py_int strftime row f now r) = ID r.
Proof.
  unfold apply_update. destruct (cell_eqb (ID r) (ID row)); reflexivity.
Qed.

Lemma cell_eqb_same (a b c : Cell) :
  cell_eqb a c = true -> cell_eqb b c = true -> a = b.
Proof.
  destruct a, b, c; simpl; try discriminate.
  intros Ha Hb. apply String.eqb_eq in Ha, Hb. congruence.
Qed.

End EditFacts.

(** X13.  What an edit may touch.  Whatever its outcome, "Save Changes"
    keeps the number and the ids of the rows and leaves every row whose
    id differs from the edited row's id exactly as it was.  When the
    edit is accepted with a CRONO SC model, all rows that share the
    edited id are overwritten with the same values and end up equal. *)
Theorem edit_touches_only_matching_rows
  (py_int : string -> option Z) (strftime : Timestamp -> string)
  (row : Row) (df : Table) (f : Edit.Form) (now : Timestamp)
  (mail : string) (w : World) :
  Forall2 (fun r r' => ID r' = ID r
                       /\ (cell_eqb (ID r) (ID row) = false -> r' = r))
          df (df_after (save_changes py_int strftime row df f now mail w))
  /\ (accepted (outcome (save_changes py_int strftime row df f now mail w))
      = true ->
      df_after (save_changes py_int strftime row df f now mail w)
      = map (apply_update py_int strftime row f now) df)
  /\ (is_crono_text (Edit.m f) = true ->
      forall r1 r2,
        cell_eqb (ID r1) (ID row) = true ->
        cell_eqb (ID r2) (ID row) = true ->
        apply_update py_int strftime row f now r1
        = apply_update py_int strftime row f now r2).
Proof.
  split; [|split].
  2: { destruct (save_changes_cases py_int strftime row df f now mail w)
         as [E | [E | E]]; rewrite E; try discriminate.
       intros _. apply commit_effect. }
  - assert (Hsame : Forall2
              (fun r r' => ID r' = ID r
                           /\ (cell_eqb (ID r) (ID row) = false -> r' = r))
              df df).
    { induction df as [|r t IH]; constructor; auto. }
    destruct (save_changes_cases py_int strftime row df f now mail w)
      as [E | [E | E]]; rewrite E; try exact Hsame.
    destruct (commit_effect (map (apply_update py_int strftime row f now) df) w [])
      as (-> & _).
    clear. induction df as [|r t IH]; simpl; constructor; [|exact IH].
    split; [apply apply_update_ID|]. apply apply_update_other.
  - intros Hcrono r1 r2 H1 H2. unfold apply_update.
    rewrite H1, H2, Hcrono. f_equal. apply (cell_eqb_same _ _ _ H1 H2).
Qed.

Lemma edit_touches_only_matching_rows_witness :
  df_after (save_changes no_int clock_text (crono "A" "P1") same_id_table
              (edit_form "Crono SC 20" None) now_10h "admin@cmc"
              (world0 same_id_table))
  = [apply_update no_int clock_text (crono "A" "P1")
       (edit_form "Crono SC 20" None) now_10h (crono "A" "P1");
     apply_update no_int clock_text (crono "A" "P1")
       (edit_form "Crono SC 20" None) now_10h (crono "A" "P1");
     apply_update no_int clock_text (crono "A" "P1")
       (edit_form "Crono SC 20" None) now_10h (crono "A" "P1")].
Proof.
  destruct (edit_touches_only_matching_rows no_int clock_text
              (crono "A" "P1") same_id_table
              (edit_form "Crono SC 20" None) now_10h "admin@cmc"
              (world0 same_id_table)) as (_ & Hdf & Heq).
  rewrite (Hdf eq_refl). unfold same_id_table. cbn [map].
  rewrite (Heq eq_refl (crono "A" "P2") (crono "A" "P1") eq_refl eq_refl).
  rewrite (Heq eq_refl (crono "A" "P3") (crono "A" "P1") eq_refl eq_refl).
  reflexivity.
Defined.

(** X14.  An edit of a row whose id is missing changes no row at all,
    since a missing id equals no id, not even itself; when the edit is
    not a CRONO SC one and the file can be written it is nevertheless
    reported as saved. *)
Theorem edit_of_row_without_id
  (py_int : string -> option Z) (strftime : Timestamp -> string)
  (row : Row) (df : Table) (f : Edit.Form) (now : Timestamp)
  (mail : string) (w : World) :
  ID row = NA ->
  df_after (save_changes py_int strftime row df f now mail w) = df
  /\ (is_crono_text (Edit.m f) = false -> disk_ok w = true ->
      outcome (save_changes py_int strftime row df f now mail w) = Saved
      /\ file (world_after (save_changes py_int strftime row df f now mail w))
         = Some df).
Proof.
  intros Hid.
  assert (Hmap : map (apply_update py_int strftime row f now) df = df).
  { rewrite <- (map_id df) at 2. apply map_ext. intros r.
    apply apply_update_other. rewrite Hid. destruct (ID r); reflexivity. }
  split.
  - destruct (save_changes_cases py_int strftime row df f now mail w)
      as [E | [E | E]]; rewrite E; try reflexivity.
    rewrite Hmap. apply commit_effect.
  - intros Hmodel Hdisk.
    rewrite (save_changes_not_crono py_int strftime row df f now mail w Hmodel).
    rewrite Hmap.
    destruct (commit_effect df w []) as (_ & _ & Hok & _).
    destruct (Hok Hdisk) as (Ho & Hf & _). auto.
Qed.

Lemma edit_of_row_without_id_witness :
  outcome (save_changes no_int clock_text blank_row [blank_row; crono "A" "P1"]
             (edit_form "Pump Z" None) now_10h "admin@cmc"
             (world0 [blank_row; crono "A" "P1"])) = Saved
  /\ df_after (save_changes no_int clock_text blank_row
                 [blank_row; crono "A" "P1"] (edit_form "Pump Z" None) now_10h
                 "admin@cmc" (world0 [blank_row; crono "A" "P1"]))
     = [blank_row; crono "A" "P1"].
Proof.
  destruct (edit_of_row_without_id no_int clock_text blank_row
              [blank_row; crono "A" "P1"] (edit_form "Pump Z" None) now_10h
              "admin@cmc" (world0 [blank_row; crono "A" "P1"]) eq_refl)
    as [Hdf Hsaved].
  split; [|exact Hdf]. apply Hsaved; reflexivity.
Defined.

Lemma strip_of_blank (txt : string) :
  PyStr.strip txt = "" -> PyStr.strip (PyStr.strip txt) = "".
Proof. intros ->. reflexivity. Qed.

Lemma rstrip_fixed (txt : string) :
  PyStr.rstrip (PyStr.rstrip txt) = PyStr.rstrip txt.
Proof.
  induction txt as [|ch txt IH]; [reflexivity|]. cbn [PyStr.rstrip].
  destruct (PyStr.isspace ch && (PyStr.rstrip txt =? "")%string) eqn:E;
    [reflexivity|].
  cbn [PyStr.rstrip]. rewrite IH, E. reflexivity.
Qed.

Lemma lstrip_rstrip_comm (txt : string) :
  PyStr.lstrip (PyStr.rstrip txt) = PyStr.rstrip (PyStr.lstrip txt).
Proof.
  induction txt as [|ch txt IH]; [reflexivity|]. cbn [PyStr.rstrip PyStr.lstrip].
  destruct (PyStr.isspace ch) eqn:Hsp; cbn [andb].
  - destruct (String.eqb_spec (PyStr.rstrip txt) "") as [E | N].
    + rewrite (rstrip_blank_lstrip txt E). reflexivity.
    + cbn [PyStr.lstrip]. rewrite Hsp. exact IH.
  - cbn [PyStr.lstrip PyStr.rstrip]. rewrite Hsp. reflexivity.
Qed.

(** [strip] is idempotent. *)
Lemma strip_fixed (txt : string) :
  PyStr.strip (PyStr.strip txt) = PyStr.strip txt.
Proof.
  unfold PyStr.strip.
  rewrite lstrip_rstrip_comm, lstrip_idempotent, rstrip_fixed. reflexivity.
Qed.

(** X15.  A CRONO SC edit of a row without patient.  When nothing but
    whitespace has been typed for the patient the edit is rejected as
    "patient required" and changes nothing.  When a patient has been
    typed that fewer than 2 CRONO SC rows carry, the edit goes to the
    save and every row with the edited id gets the typed value with its
    surrounding whitespace removed. *)
Theorem edit_assigns_typed_patient
  (py_int : string -> option Z) (strftime : Timestamp -> string)
  (row : Row) (df : Table) (f : Edit.Form) (now : Timestamp)
  (mail : string) (w : World) :
  is_crono_text (Edit.m f) = true ->
  is_empty (Patient row) = true ->
  (is_empty (Str (typed_patient f)) = true ->
   save_changes py_int strftime row df f now mail w
   = mkEffect PatientRequired df w [])
  /\ (is_empty (Str (typed_patient f)) = false ->
      (existing_count df (PyStr.strip (typed_patient f)) < 2)%nat ->
      save_changes py_int strftime row df f now mail w
      = commit (map (apply_update py_int strftime row f now) df) w []
      /\ forall r,
           cell_eqb (ID r) (ID row) = true ->
           Patient (apply_update py_int strftime row f now r)
           = Str (PyStr.strip (typed_patient f))).
Proof.
  intros Hcrono Hunset.
  assert (Hassigned : assigned_patient row f = PyStr.strip (typed_patient f))
    by (unfold assigned_patient, typed_patient; now rewrite Hunset).
  assert (Hblank : is_empty (Str (assigned_patient row f))
                   = is_empty (Str (typed_patient f))).
  { rewrite Hassigned. unfold is_empty. cbn [isna py_str].
    now rewrite strip_fixed. }
  rewrite (save_changes_patient_unset py_int strftime row df f now mail w
             Hcrono Hunset), Hblank.
  split.
  - intros ->. reflexivity.
  - intros -> Hcount. rewrite Hassigned.
    apply Nat.leb_gt in Hcount. rewrite Hcount. split; [reflexivity|].
    intros r Hid. unfold apply_update. rewrite Hid, Hcrono. cbn [Patient].
    now rewrite Hassigned.
Qed.

Lemma edit_assigns_typed_patient_witness :
  save_changes no_int clock_text (crono "C" "") [crono "C" ""]
    (edit_form "Crono SC 20" (Some "   ")) now_10h "admin@cmc"
    (world0 [crono "C" ""])
  = mkEffect PatientRequired [crono "C" ""] (world0 [crono "C" ""]) []
  /\ Patient (apply_update no_int clock_text (crono "C" "")
                (edit_form "Crono SC 20" (Some " P100 ")) now_10h
                (crono "C" ""))
     = Str "P100".
Proof.
  split.
  - apply (proj1 (edit_assigns_typed_patient no_int clock_text (crono "C" "")
                    [crono "C" ""] (edit_form "Crono SC 20" (Some "   "))
                    now_10h "admin@cmc" (world0 [crono "C" ""])
                    eq_refl eq_refl)).
    reflexivity.
  - destruct (proj2 (edit_assigns_typed_patient no_int clock_text (crono "C" "")
                       [crono "C" ""] (edit_form "Crono SC 20" (Some " P100 "))
                       now_10h "admin@cmc" (world0 [crono "C" ""])
                       eq_refl eq_refl)) as [_ Hpatient].
    + reflexivity.
    + vm_compute. lia.
    + apply (Hpatient (crono "C" "")). reflexivity.
Defined.

(** X16.  What a mutation leaves behind, on both paths.  The outcome is
    Saved exactly when the file could be written: then the file holds
    the table of the run and the read cache is empty.  After a failed
    save the store is as before, while the table of the run already
    carries the change.  A rejected mutation changes neither.  The edit
    path never takes its lock branch and never sends mail. *)
Theorem mutation_effects
  (py_int : string -> option Z) (strftime : Timestamp -> string)
  (eff : Effect) (df : Table) (w : World) :
  (exists row f now mail,
     eff = save_changes py_int strftime row df f now mail w)
  \/ (exists f user_client now,
        eff = add_pump strftime df f user_client now w) ->
  (outcome eff = Saved ->
   disk_ok w = true
   /\ file (world_after eff) = Some (df_after eff)
   /\ cache (world_after eff) = None)
  /\ (outcome eff = SaveFailed -> disk_ok w = false /\ world_after eff = w)
  /\ (accepted (outcome eff) = false ->
      df_after eff = df /\ world_after eff = w)
  /\ outcome eff <> PatientLocked
  /\ emails eff = [].
Proof.
  assert (Hcommit : forall t,
    (outcome (commit t w []) = Saved ->
     disk_ok w = true
     /\ file (world_after (commit t w [])) = Some (df_after (commit t w []))
     /\ cache (world_after (commit t w [])) = None)
    /\ (outcome (commit t w []) = SaveFailed ->
        disk_ok w = false /\ world_after (commit t w []) = w)
    /\ (accepted (outcome (commit t w [])) = false ->
        df_after (commit t w []) = df /\ world_after (commit t w []) = w)
    /\ outcome (commit t w []) <> PatientLocked
    /\ emails (commit t w []) = []).
  { intros t. destruct (commit_effect t w []) as (Hdf & Hmail & Hok & Hfail).
    rewrite Hdf. destruct (disk_ok w).
    - destruct (Hok eq_refl) as (Ho & Hf & Hc). rewrite Ho.
      repeat split; auto; discriminate.
    - destruct (Hfail eq_refl) as (Ho & Hw). rewrite Ho.
      repeat split; auto; discriminate. }
  assert (Hreject : forall o,
    accepted o = false -> o <> PatientLocked ->
    (outcome (mkEffect o df w []) = Saved ->
     disk_ok w = true
     /\ file (world_after (mkEffect o df w []))
        = Some (df_after (mkEffect o df w []))
     /\ cache (world_after (mkEffect o df w [])) = None)
    /\ (outcome (mkEffect o df w []) = SaveFailed ->
        disk_ok w = false /\ world_after (mkEffect o df w []) = w)
    /\ (accepted (outcome (mkEffect o df w [])) = false ->
        df_after (mkEffect o df w []) = df
        /\ world_after (mkEffect o df w []) = w)
    /\ outcome (mkEffect o df w []) <> PatientLocked
    /\ emails (mkEffect o df w []) = []).
  { intros o Ho Hl. cbn [outcome df_after world_after emails].
    repeat split; auto; subst o; simpl in Ho; discriminate. }
  intros [(row & f & now & mail & ->) | (f & user_client & now & ->)].
  - destruct (save_changes_cases py_int strftime row df f now mail w)
      as [E | [E | E]]; rewrite E.
    + apply Hcommit.
    + apply Hreject; [reflexivity|discriminate].
    + apply Hreject; [reflexivity|discriminate].
  - unfold add_pump.
    destruct (_ || _); [apply Hreject; [reflexivity|discriminate]|].
    destruct (is_crono_text (Add.new_model f)); [|apply Hcommit].
    destruct (is_empty (Str (new_patient f)));
      [apply Hreject; [reflexivity|discriminate]|].
    destruct (2 <=? existing_count df (new_patient f))%nat;
      [apply Hreject; [reflexivity|discriminate]|apply Hcommit].
Qed.

Lemma mutation_effects_witness :
  outcome (add_pump clock_text pair_P100 (add_form "D" "Pump X" "")
             (Some "Clinic A") now_10h (mkWorld (Some pair_P100) None false))
  <> PatientLocked
  /\ (outcome (add_pump clock_text pair_P100 (add_form "D" "Pump X" "")
                 (Some "Clinic A") now_10h
                 (mkWorld (Some pair_P100) None false)) = SaveFailed ->
      world_after (add_pump clock_text pair_P100 (add_form "D" "Pump X" "")
                     (Some "Clinic A") now_10h
                     (mkWorld (Some pair_P100) None false))
      = mkWorld (Some pair_P100) None false).
Proof.
  destruct (mutation_effects no_int clock_text
              (add_pump clock_text pair_P100 (add_form "D" "Pump X" "")
                 (Some "Clinic A") now_10h (mkWorld (Some pair_P100) None false))
              pair_P100 (mkWorld (Some pair_P100) None false))
    as (_ & Hfail & _ & Hlock & _).
  - right. exists (add_form "D" "Pump X" ""), (Some "Clinic A"), now_10h.
    reflexivity.
  - split; [exact Hlock|]. intros H. apply Hfail. exact H.
Defined.

(* ------------------------------------------------------------------ *)
(** ** The add path *)

(** X17.  The gate of "Add Pump".  A pump is added exactly when its id
    and its model are not blank and, for a CRONO SC model, a non-blank
    patient is given that fewer than 2 CRONO SC rows carry; whether the
    id is already in the table plays no part.  An accepted pump is one
    new last row, with the patient as typed for a CRONO SC model and
    without patient otherwise; the rows already there are untouched.  A
    refused pump leaves the table as it was. *)
Theorem add_pump_gate
  (strftime : Timestamp -> string) (df : Table) (f : Add.Form)
  (user_client : option string) (now : Timestamp) (w : World) :
  (accepted (outcome (add_pump strftime df f user_client now w)) = true
   <-> PyStr.strip (Add.new_id f) <> ""
       /\ PyStr.strip (Add.new_model f) <> ""
       /\ (is_crono_text (Add.new_model f) = false
           \/ (is_empty (Str (Add.patient_input f)) = false
               /\ (existing_count df (Add.patient_input f) < 2)%nat)))
  /\ (accepted (outcome (add_pump strftime df f user_client now w)) = true ->
      df_after (add_pump strftime df f user_client now w)
      = (df ++ [new_row strftime f user_client now
                  (if is_crono_text (Add.new_model f)
                   then Str (Add.patient_input f) else NA)])%list)
  /\ (accepted (outcome (add_pump strftime df f user_client now w)) = false ->
      df_after (add_pump strftime df f user_client now w) = df).
Proof.
  assert (Hacc : forall t, accepted (outcome (commit t w [])) = true).
  { intros t. destruct (commit_outcome t w []) as [-> | ->]; reflexivity. }
  assert (Hdf : forall t, df_after (commit t w []) = t)
    by (intros t; apply commit_effect).
  unfold add_pump, new_patient.
  destruct (String.eqb_spec (PyStr.strip (Add.new_id f)) "") as [Hid | Hid].
  { cbn [orb outcome df_after accepted]. split; [|split]; auto; try discriminate.
    split; [discriminate|]. intros (H & _). contradiction. }
  destruct (String.eqb_spec (PyStr.strip (Add.new_model f)) "") as [Hm | Hm].
  { cbn [orb outcome df_after accepted]. split; [|split]; auto; try discriminate.
    split; [discriminate|]. intros (_ & H & _). contradiction. }
  cbn [orb].
  destruct (is_crono_text (Add.new_model f)) eqn:Hcrono; cbn [negb].
  - destruct (is_empty (Str (Add.patient_input f))) eqn:Hblank.
    { cbn [outcome df_after accepted]. split; [|split]; auto; try discriminate.
      split; [discriminate|]. intros (_ & _ & [H | [H _]]); discriminate. }
    destruct (2 <=? existing_count df (Add.patient_input f))%nat eqn:Hk.
    { cbn [outcome df_after accepted]. split; [|split]; auto; try discriminate.
      split; [discriminate|]. apply Nat.leb_le in Hk.
      intros (_ & _ & [H | [_ H]]); [discriminate|lia]. }
    apply Nat.leb_gt in Hk. rewrite Hacc, Hdf.
    split; [|split]; auto; try discriminate. tauto.
  - rewrite Hacc, Hdf. split; [|split]; auto; try discriminate. tauto.
Qed.

Lemma add_pump_gate_witness :
  df_after (add_pump clock_text [crono "A" "P7"] (add_form "A" "Pump X" "P9")
              (Some "Clinic A") now_10h (world0 [crono "A" "P7"]))
  = [crono "A" "P7";
     new_row clock_text (add_form "A" "Pump X" "P9") (Some "Clinic A")
             now_10h NA]
  /\ df_after (add_pump clock_text [crono "A" "P7"] (add_form "  " "Pump X" "")
                 (Some "Clinic A") now_10h (world0 [crono "A" "P7"]))
     = [crono "A" "P7"].
Proof.
  destruct (add_pump_gate clock_text [crono "A" "P7"]
              (add_form "A" "Pump X" "P9") (Some "Clinic A") now_10h
              (world0 [crono "A" "P7"])) as (Hgate & Hadded & _).
  destruct (add_pump_gate clock_text [crono "A" "P7"]
              (add_form "  " "Pump X" "") (Some "Clinic A") now_10h
              (world0 [crono "A" "P7"])) as (Hgate' & _ & Hrefused).
  split.
  - apply Hadded. apply Hgate.
    split; [discriminate|]. split; [discriminate|]. left. reflexivity.
  - apply Hrefused. apply not_true_is_false. intros H. apply Hgate' in H.
    destruct H as (H & _). apply H. reflexivity.
Defined.



(* ------------------------------------------------------------------ *)
(** ** The admin recomputation *)

(** X19.  "Recompute expiries from ID dates" looks at the id only: the
    stored expiry of a row is overwritten, and lost when the id holds no
    date.  On rows without a usable stored expiry it gives what loading
    gives, and the value it writes is kept by the next load. *)
Theorem recompute_overrides_stored
  (parse_datetime : bool -> string -> option Timestamp) (r : Row) :
  (forall r', ID r' = ID r ->
              Expiry (recompute_expiry_from_id parse_datetime r')
              = Expiry (recompute_expiry_from_id parse_datetime r))
  /\ (parse_date_from_id parse_datetime (ID r) = NaT ->
      Expiry (recompute_expiry_from_id parse_datetime r) = NaT)
  /\ (to_datetime parse_datetime false (Expiry r) = NaT ->
      Expiry (recompute_expiry_from_id parse_datetime r)
      = compute_expiry parse_datetime r)
  /\ compute_expiry parse_datetime (recompute_expiry_from_id parse_datetime r)
     = Expiry (recompute_expiry_from_id parse_datetime r).
Proof.
  split; [|split; [|split]].
  - intros r' Hid. unfold recompute_expiry_from_id. cbn [Expiry set_Expiry].
    now rewrite Hid.
  - intros Hid. unfold recompute_expiry_from_id. cbn [Expiry set_Expiry].
    now rewrite Hid.
  - intros Hexp. unfold recompute_expiry_from_id, compute_expiry.
    cbn [Expiry set_Expiry]. rewrite Hexp. reflexivity.
  - unfold recompute_expiry_from_id, compute_expiry.
    cbn [Expiry ID set_Expiry].
    destruct (parse_date_from_id_cases parse_datetime (ID r)) as [H | [t H]];
      rewrite H; cbn [notna add_expiry_years to_datetime]; reflexivity.
Qed.

Lemma recompute_overrides_stored_witness :
  Expiry (recompute_expiry_from_id slash_date
            (set_Expiry (Ts (midnight 2031 6 1)) (set_ID (Str "PX-30") blank_row)))
  = NaT
  /\ Expiry (recompute_expiry_from_id slash_date row_px01)
     = compute_expiry slash_date row_px01.
Proof.
  split.
  - apply (proj1 (proj2 (recompute_overrides_stored slash_date
             (set_Expiry (Ts (midnight 2031 6 1))
                         (set_ID (Str "PX-30") blank_row))))).
    reflexivity.
  - apply (proj1 (proj2 (proj2 (recompute_overrides_stored slash_date
                                  row_px01)))).
    reflexivity.
Defined.

(* ------------------------------------------------------------------ *)
(** ** Dispatch *)

Ltac smtp_cases net :=
  destruct (net Smtp.SMTP_SSL_465 Smtp.Connect) eqn:?;
  destruct (net Smtp.SMTP_SSL_465 Smtp.Login) eqn:?;
  destruct (net Smtp.SMTP_SSL_465 Smtp.SendMessage) eqn:?;
  destruct (net Smtp.SMTP_587 Smtp.Connect) eqn:?;
  destruct (net Smtp.SMTP_587 Smtp.StartTLS) eqn:?;
  destruct (net Smtp.SMTP_587 Smtp.Login) eqn:?;
  destruct (net Smtp.SMTP_587 Smtp.SendMessage) eqn:?.

(** [send_email] only appends to the log it is given. *)
Lemma send_email_appends (secrets : Secrets) (net : Smtp.Net)
  (call : EmailCall) (log : Smtp.Log) :
  send_email secrets net call log
  = (fst (Smtp.run (send_email secrets net call)),
     (log ++ snd (Smtp.run (send_email secrets net call)))%list).
Proof.
  unfold send_email, Smtp.run.
  destruct (negb (truthy (email_user secrets)) || negb (truthy (email_pass secrets))).
  - unfold Smtp.ret. cbn [fst snd]. now rewrite app_nil_r.
  - unfold Smtp.try_except, Smtp.bind, Smtp.op, Smtp.ret.
    smtp_cases net; cbn [fst snd app]; rewrite <- ?app_assoc; reflexivity.
Qed.

Lemma send_email_result (secrets : Secrets) (net : Smtp.Net) (call : EmailCall) :
  exists b : bool,
    fst (Smtp.run (send_email secrets net call)) = Ok b
    /\ delivered net (snd (Smtp.run (send_email secrets net call)))
       = (if b then 1 else 0)%nat
    /\ (connections (snd (Smtp.run (send_email secrets net call))) <= 2)%nat
    /\ (configured secrets = false ->
        snd (Smtp.run (send_email secrets net call)) = [])
    /\ (configured secrets = true ->
        (1 <= connections (snd (Smtp.run (send_email secrets net call))))%nat).
Proof.
  unfold send_email, Smtp.run, configured.
  destruct (truthy (email_user secrets)), (truthy (email_pass secrets));
    cbn [negb orb andb].
  2-4: exists false; unfold Smtp.ret; cbn; repeat split; auto; discriminate.
  unfold Smtp.try_except, Smtp.bind, Smtp.op, Smtp.ret, delivered, connections.
  smtp_cases net;
    cbn [fst snd app filter is_connect List.length];
    repeat match goal with H : net _ _ = _ |- _ => rewrite H end;
    cbn [fst snd app filter is_connect List.length];
    first [ exists true; repeat split; auto; (lia || discriminate)
          | exists false; repeat split; auto; (lia || discriminate) ].
Qed.


Lemma send_all_log (secrets : Secrets) (net : Smtp.Net) (calls : list EmailCall)
  (log : Smtp.Log) :
  send_all secrets net calls log
  = (Ok tt,
     (log ++ List.concat (map (fun call => snd (Smtp.run (send_email secrets net call)))
                         calls))%list).
Proof.
  revert log. induction calls as [|call rest IH]; intros log.
  - simpl. unfold Smtp.ret. now rewrite app_nil_r.
  - cbn [send_all map List.concat]. unfold Smtp.bind.
    rewrite send_email_appends.
    destruct (send_email_result secrets net call) as (b & Hb & _).
    rewrite Hb, IH, app_assoc. reflexivity.
Qed.



(* ------------------------------------------------------------------ *)
(** ** Filters *)

Lemma string_compare_refl (txt : string) : String.compare txt txt = Eq.
Proof.
  pose proof (String.compare_antisym txt txt) as H.
  destruct (String.compare txt txt); [reflexivity|discriminate|discriminate].
Qed.

Lemma key_compare_eq (a b : Key) : key_compare a b = Eq <-> a = b.
Proof.
  destruct a as [x|x], b as [y|y]; simpl; split; try discriminate.
  - intros H. apply Z.compare_eq in H. now subst.
  - intros H. inversion H. apply Z.compare_refl.
  - intros H. apply String.compare_eq_iff in H. now subst.
  - intros H. inversion H. apply string_compare_refl.
Qed.

Lemma key_eqb_refl (k : Key) : key_eqb k k = true.
Proof.
  unfold key_eqb. now rewrite (proj2 (key_compare_eq k k) eq_refl).
Qed.

Lemma insert_option_in (k x : Key) (l : list Key) :
  In k (insert_option x l) <-> k = x \/ In k l.
Proof.
  induction l as [|h l IH]; simpl; [intuition|].
  destruct (key_compare x h) eqn:C; simpl.
  - apply key_compare_eq in C. subst. intuition.
  - intuition.
  - rewrite IH. intuition.
Qed.

Lemma column_options_in (col : Column) (df : Table) (k : Key) :
  In k (column_options col df)
  <-> exists r, In r df /\ column_value col r = Some k.
Proof.
  induction df as [|r df IH]; simpl.
  - split; [contradiction|]. intros (r & [] & _).
  - destruct (column_value col r) as [v|] eqn:Hv.
    + rewrite insert_option_in, IH. split.
      * intros [-> | (x & Hx & Hk)]; [exists r; auto|]. exists x. auto.
      * intros (x & [<- | Hx] & Hk).
        -- left. congruence.
        -- right. exists x. auto.
    + rewrite IH. split.
      * intros (x & Hx & Hk). exists x. auto.
      * intros (x & [<- | Hx] & Hk); [congruence|]. exists x. auto.
Qed.

Lemma filter_all_true {A} (f : A -> bool) (l : list A) :
  (forall x, f x = true) -> filter f l = l.
Proof.
  intros H. induction l as [|x l IH]; simpl; [reflexivity|].
  now rewrite H, IH.
Qed.

Lemma filter_column_keeps (multiselect : Column -> list Key -> list Key)
  (df : Table) (col : Column) :
  exists keep, filter_column multiselect df col = filter keep df.
Proof.
  unfold filter_column.
  assert (Hid : filter (fun _ => true) df = df).
  { induction df as [|r t IH]; simpl; [reflexivity|now rewrite IH]. }
  destruct (column_options col df) as [|k options];
    [exists (fun _ => true); now rewrite Hid|].
  destruct (multiselect col (k :: options)) as [|s selected];
    [exists (fun _ => true); now rewrite Hid|].
  eexists. reflexivity.
Qed.

Lemma fold_filter_column_keeps (multiselect : Column -> list Key -> list Key)
  (cols : list Column) (df : Table) :
  exists keep, fold_left (filter_column multiselect) cols df = filter keep df.
Proof.
  revert df. induction cols as [|col cols IH]; intros df; simpl.
  - exists (fun _ => true).
    induction df as [|r t IHt]; simpl; [reflexivity|now rewrite <- IHt].
  - destruct (filter_column_keeps multiselect df col) as (k1 & ->).
    destruct (IH (filter k1 df)) as (k2 & ->).
    exists (fun r => k1 r && k2 r). apply filter_filter.
Qed.

Lemma filter_column_all (df : Table) (col : Column) (r0 : Row) :
  In r0 df -> column_value col r0 <> None ->
  filter_column select_all df col
  = filter (fun r => match column_value col r with
                     | Some _ => true
                     | None => false
                     end) df.
Proof.
  intros Hin Hval. unfold filter_column, select_all.
  destruct (column_options col df) as [|k options] eqn:E.
  - exfalso. destruct (column_value col r0) as [v|] eqn:Hv; [|contradiction].
    assert (In v (column_options col df))
      by (apply column_options_in; exists r0; auto).
    rewrite E in H. contradiction.
  - rewrite <- E. apply filter_ext_in. intros r Hr. unfold isin.
    destruct (column_value col r) as [v|] eqn:Hv; [|reflexivity].
    apply existsb_exists. exists v. split; [|apply key_eqb_refl].
    apply column_options_in. exists r. auto.
Qed.

Lemma fold_filter_column_all (cols : list Column) (df : Table) (r0 : Row) :
  In r0 df -> complete_for cols r0 = true ->
  fold_left (filter_column select_all) cols df = filter (complete_for cols) df.
Proof.
  revert df. induction cols as [|col cols IH]; intros df Hin Hc.
  - simpl. symmetry. apply filter_all_true. reflexivity.
  - cbn [fold_left]. cbn [complete_for forallb] in Hc.
    apply andb_true_iff in Hc. destruct Hc as [Hcol Hrest].
    rewrite (filter_column_all df col r0 Hin)
      by (destruct (column_value col r0); [discriminate|discriminate]).
    rewrite IH.
    + rewrite filter_filter. reflexivity.
    + apply filter_In. split; [exact Hin|exact Hcol].
    + exact Hrest.
Qed.

(** X22.  Filters only hide rows: whatever is selected, the filtered
    table consists of rows of the table, unchanged and in their order;
    and a column in which nothing is selected does not filter, so that
    with nothing selected anywhere the table comes back whole. *)
Theorem filters_only_hide_rows
  (multiselect : Column -> list Key -> list Key) (df : Table) (user : User) :
  (exists keep, apply_filters multiselect df user = filter keep df)
  /\ ((forall col options, multiselect col options = []) ->
      apply_filters multiselect df user = df).
Proof.
  split; [apply fold_filter_column_keeps|].
  intros Hnone. unfold apply_filters.
  generalize (filter_columns user). intros cols.
  induction cols as [|col cols IH]; [reflexivity|].
  cbn [fold_left].
  assert (filter_column multiselect df col = df) as ->; [|exact IH].
  unfold filter_column. destruct (column_options col df); [reflexivity|].
  now rewrite Hnone.
Qed.

Lemma filters_only_hide_rows_witness :
  apply_filters (fun _ _ => []) [blank_row; row_no_expiry] admin
  = [blank_row; row_no_expiry].
Proof.
  apply (proj2 (filters_only_hide_rows (fun _ _ => [])
                  [blank_row; row_no_expiry] admin)).
  reflexivity.
Defined.

(** X23.  The untouched filters hide incomplete rows.  With every
    option selected, as the filters are first shown, and at least one row
    that has a Year, a Model and a Status (and a Client, for an admin),
    the filtered table is made of exactly the rows that have all of
    them: a row with one of these cells missing is not listed. *)
Theorem default_filters_hide_incomplete_rows
  (df : Table) (user : User) (r0 : Row) :
  In r0 df ->
  complete_for (filter_columns user) r0 = true ->
  apply_filters select_all df user
  = filter (complete_for (filter_columns user)) df.
Proof.
  intros Hin Hc. unfold apply_filters.
  apply (fold_filter_column_all (filter_columns user) df r0 Hin Hc).
Qed.

Lemma default_filters_hide_incomplete_rows_witness :
  apply_filters select_all
    [row_no_expiry; pump (Str "PX-40") NA (Str "In use") NA NaT] admin
  = [row_no_expiry].
Proof.
  rewrite (default_filters_hide_incomplete_rows
             [row_no_expiry; pump (Str "PX-40") NA (Str "In use") NA NaT]
             admin row_no_expiry).
  - reflexivity.
  - left; reflexivity.
  - reflexivity.
Defined.

(* ------------------------------------------------------------------ *)
(** ** Saving a form that was not touched *)

Lemma in_strings_true (txt : string) (l : list string) :
  In txt l -> in_strings txt l = true.
Proof.
  intros H. unfold in_strings. apply existsb_exists.
  exists txt. split; [exact H|apply String.eqb_refl].
Qed.

(** X24.  "Save Changes" on a form as it is first shown, for a row with
    all its cells filled in.  For a CRONO SC row without patient the save
    is refused (patient required).  Otherwise it goes through and
    rewrites the row with its own values, except for two cells: Last
    Updated becomes the current time, and Expiry becomes midnight of
    the date shown in the form - the date of the stored expiry, its
    time of day dropped, or today's date when the row has no expiry. *)
Theorem untouched_form_save
  (parse_datetime : bool -> string -> option Timestamp)
  (str_int : Z -> string) (py_int : string -> option Z)
  (strftime : Timestamp -> string)
  (row : Row) (today : Date) (now : Timestamp) :
  filled_in row ->
  (forall z v, py_int (str_int z) = Some v -> v = z) ->
  (is_crono_text (safe_str (Model row)) = true ->
   is_empty (Patient row) = true ->
   forall df mail w,
     save_changes py_int strftime row df
       (default_form parse_datetime str_int row today) now mail w
     = mkEffect PatientRequired df w [])
  /\ (is_crono_text (safe_str (Model row)) = false
      \/ is_empty (Patient row) = false ->
      (forall df mail w,
         save_changes py_int strftime row df
           (default_form parse_datetime str_int row today) now mail w
         = commit (map (apply_update py_int strftime row
                          (default_form parse_datetime str_int row today) now)
                       df) w [])
      /\ apply_update py_int strftime row
           (default_form parse_datetime str_int row today) now row
         = set_Last_Updated (Str (strftime now))
             (set_Expiry (Ts (mkTs (safe_date parse_datetime (Expiry row) today) 0))
                         row)
      /\ (to_datetime parse_datetime false (Expiry row) = NaT ->
          Expiry (apply_update py_int strftime row
                    (default_form parse_datetime str_int row today) now row)
          = Ts (mkTs today 0))).
Proof.
  intros Hfilled Hint.
  set (f := default_form parse_datetime str_int row today).
  assert (Hm : Edit.m f = safe_str (Model row)) by reflexivity.
  split.
  - intros Hcrono Hunset df mail w.
    rewrite (save_changes_patient_unset py_int strftime row df f now mail w)
      by (try rewrite Hm; assumption).
    assert (Hassigned : assigned_patient row f = "").
    { unfold assigned_patient. rewrite Hunset. cbn [negb].
      unfold f, default_form. cbn [Edit.session_patient].
      unfold is_crono_text in Hcrono. rewrite Hcrono, Hunset. reflexivity. }
    rewrite Hassigned. reflexivity.
  - intros Hkind.
    assert (Hsave : forall df mail w,
              save_changes py_int strftime row df f now mail w
              = commit (map (apply_update py_int strftime row f now) df) w []).
    { intros df mail w. destruct Hkind as [Hk | Hk].
      - apply save_changes_not_crono. now rewrite Hm.
      - now apply save_changes_patient_set. }
    destruct Hfilled as ((vid & Hid) & (vc & Hc) & (vm & Hmod) & (vs & Hser)
                         & (vn & Hn) & (vq & Hq & _) & (vst & Hst & Hopt)).
    assert (Hrow : apply_update py_int strftime row f now row
                   = set_Last_Updated (Str (strftime now))
                       (set_Expiry
                          (Ts (mkTs (safe_date parse_datetime (Expiry row) today) 0))
                          row)).
    { assert (Hstatus : shown_status (Status row) = vst).
      { rewrite Hst. unfold shown_status. cbn [safe_str isna py_str].
        now rewrite (in_strings_true vst STATUS_OPTIONS Hopt). }
      assert (Hyear : safe_int py_int (year_text str_int (Year row)) (Year row)
                      = Year row).
      { unfold safe_int, year_text. destruct (Year row) as [z|]; [|reflexivity].
        destruct (str_int z =? "")%string; [reflexivity|].
        destruct (py_int (str_int z)) as [v|] eqn:Hv; [|reflexivity].
        now rewrite (Hint z v Hv). }
      assert (Hpatient : (if is_crono_text (Edit.m f)
                          then Str (assigned_patient row f)
                          else Patient row) = Patient row).
      { destruct (is_crono_text (Edit.m f)) eqn:Hcr; [|reflexivity].
        destruct Hkind as [Hk | Hk].
        - rewrite Hm in Hcr. congruence.
        - rewrite (assigned_when_patient_set row f Hk).
          symmetry. now apply patient_set_is_string. }
      unfold apply_update. rewrite Hid. cbn [cell_eqb]. rewrite String.eqb_refl.
      rewrite Hpatient.
      change (Edit.y f) with (year_text str_int (Year row)).
      change (Edit.s f) with (shown_status (Status row)).
      change (Edit.c f) with (safe_str (Client row)).
      change (Edit.m f) with (safe_str (Model row)).
      change (Edit.n f) with (safe_str (Notes row)).
      change (Edit.e f) with (safe_date parse_datetime (Expiry row) today).
      change (Edit.q_sold f) with (shown_quantity (Quantity_Sold row)).
      change (Edit.serial f) with (safe_str (Serial_Number row)).
      rewrite Hstatus, Hyear.
      unfold set_Last_Updated, set_Expiry.
      cbn [ID Client Model Quantity_Sold Serial_Number Year Status Last_Updated
           Expiry Patient Notes].
      rewrite Hid, Hc, Hmod, Hser, Hn, Hq, Hst.
      reflexivity. }
    split; [exact Hsave|]. split; [exact Hrow|].
    intros Hexp. rewrite Hrow. cbn [set_Last_Updated set_Expiry Expiry].
    unfold safe_date. now rewrite Hexp.
Qed.

Lemma dec_roundtrip (z : Z) : dec_int (dec_str z) = Some z.
Proof.
  unfold dec_int, dec_str. rewrite DecimalString.NilZero.isi.
  - simpl. f_equal. apply DecimalZ.of_to.
  - destruct z; simpl; try discriminate. intros [= H].
    now apply DecimalPos.Unsigned.to_uint_nonnil in H.
  - destruct z; simpl; try discriminate. intros [= H].
    now apply DecimalPos.Unsigned.to_uint_nonnil in H.
Qed.

Lemma untouched_form_save_witness :
  apply_update dec_int clock_text pump_without_expiry
    (default_form slash_date dec_str pump_without_expiry (mkDate 2026 11 4))
    now_10h pump_without_expiry
  = set_Last_Updated (Str (clock_text now_10h))
      (set_Expiry (Ts (midnight 2026 11 4)) pump_without_expiry)
  /\ Expiry (apply_update dec_int clock_text pump_expiring_at_noon
               (default_form slash_date dec_str pump_expiring_at_noon
                  (mkDate 2026 11 4)) now_10h pump_expiring_at_noon)
     = Ts (midnight 2027 3 1)
  /\ save_changes dec_int clock_text (crono "C" "") [crono "C" ""]
       (default_form slash_date dec_str (crono "C" "") (mkDate 2026 11 4))
       now_10h "admin@cmc" (world0 [crono "C" ""])
     = mkEffect PatientRequired [crono "C" ""] (world0 [crono "C" ""]) [].
Proof.
  assert (Hint : forall z v, dec_int (dec_str z) = Some v -> v = z).
  { intros z v H. rewrite dec_roundtrip in H. now inversion H. }
  assert (Hfilled : forall r idv cv mv sv nv qv stv,
            ID r = Str idv -> Client r = Str cv -> Model r = Str mv ->
            Serial_Number r = Str sv -> Notes r = Str nv ->
            Quantity_Sold r = Some qv -> 0 <= qv -> Status r = Str stv ->
            In stv STATUS_OPTIONS -> filled_in r).
  { intros r idv cv mv sv nv qv stv H1 H2 H3 H4 H5 H6 Hq H7 H8.
    unfold filled_in. repeat split; eauto. }
  split; [|split].
  - destruct (untouched_form_save slash_date dec_str dec_int clock_text
                pump_without_expiry (mkDate 2026 11 4) now_10h) as [_ Hsave].
    + apply (Hfilled pump_without_expiry "PX-50" "Clinic A" "Pump X" "SN-50"
               "new" 3 "In stock"); try reflexivity; [lia|]. right; left; reflexivity.
    + exact Hint.
    + destruct Hsave as (_ & Hrow & _); [left; reflexivity|exact Hrow].
  - destruct (untouched_form_save slash_date dec_str dec_int clock_text
                pump_expiring_at_noon (mkDate 2026 11 4) now_10h) as [_ Hsave].
    + apply (Hfilled pump_expiring_at_noon "PX-51" "Clinic A" "Crono SC 20"
               "SN-51" "" 3 "In use"); try reflexivity; [lia|]. left; reflexivity.
    + exact Hint.
    + destruct Hsave as (_ & Hrow & _); [right; reflexivity|].
      rewrite Hrow. reflexivity.
  - destruct (untouched_form_save slash_date dec_str dec_int clock_text
                (crono "C" "") (mkDate 2026 11 4) now_10h) as [Hrefused _].
    + apply (Hfilled (crono "C" "") "C" "Clinic A" "Crono SC 20" "SN-1" "" 1
               "In use"); try reflexivity; [lia|]. left; reflexivity.
    + exact Hint.
    + apply Hrefused; reflexivity.
Defined.

(* ------------------------------------------------------------------ *)
(** ** Analytics *)

From Stdlib Require Import Sorted.

Lemma add_to_group_keys (y q k : Z) (groups : list (Z * Z)) :
  In k (map fst (add_to_group y q groups)) <-> k = y \/ In k (map fst groups).
Proof.
  induction groups as [|[y' total] rest IH]; simpl; [intuition|].
  destruct (Z.compare_spec y y'); simpl.
  - subst. intuition.
  - intuition.
  - rewrite IH. intuition.
Qed.

Lemma add_to_group_sorted (y q : Z) (groups : list (Z * Z)) :
  StronglySorted Z.lt (map fst groups) ->
  StronglySorted Z.lt (map fst (add_to_group y q groups)).
Proof.
  induction groups as [|[y' total] rest IH]; simpl; intros Hs.
  - constructor; constructor.
  - inversion Hs as [|? ? Hrest Hall]; subst.
    destruct (Z.compare_spec y y'); simpl.
    + constructor; assumption.
    + constructor; [exact Hs|]. constructor; [assumption|].
      apply Forall_forall. intros k Hk.
      rewrite Forall_forall in Hall. specialize (Hall k Hk). lia.
    + constructor; [apply IH; exact Hrest|].
      apply Forall_forall. intros k Hk. apply add_to_group_keys in Hk.
      destruct Hk as [-> | Hk]; [assumption|].
      rewrite Forall_forall in Hall. apply Hall. exact Hk.
Qed.

Lemma total_in_absent (y : Z) (groups : list (Z * Z)) :
  ~ In y (map fst groups) -> total_in y groups = None.
Proof.
  induction groups as [|[y' total] rest IH]; simpl; [reflexivity|].
  intros H. destruct (Z.eqb_spec y' y); [exfalso; auto|]. apply IH. auto.
Qed.

Lemma total_in_add (y y' q : Z) (groups : list (Z * Z)) :
  StronglySorted Z.lt (map fst groups) ->
  total_in y (add_to_group y' q groups)
  = if y' =? y
    then Some (match total_in y groups with Some t => t + q | None => q end)
    else total_in y groups.
Proof.
  induction groups as [|[k total] rest IH]; simpl; intros Hs.
  - reflexivity.
  - inversion Hs as [|? ? Hrest Hall]; subst.
    destruct (Z.compare_spec y' k); simpl.
    + subst k. destruct (Z.eqb_spec y' y); reflexivity.
    + destruct (Z.eqb_spec y' y) as [-> | Hne]; [|reflexivity].
      destruct (Z.eqb_spec k y); [lia|].
      rewrite total_in_absent; [reflexivity|].
      intros Hin. rewrite Forall_forall in Hall. specialize (Hall y Hin). lia.
    + destruct (Z.eqb_spec k y) as [-> | Hne].
      * destruct (Z.eqb_spec y' y); [lia|reflexivity].
      * apply IH. exact Hrest.
Qed.

Lemma total_of_groups_add (y q : Z) (groups : list (Z * Z)) :
  total_of_groups (add_to_group y q groups) = q + total_of_groups groups.
Proof.
  unfold total_of_groups.
  induction groups as [|[y' total] rest IH]; simpl; [reflexivity|].
  destruct (Z.compare_spec y y'); simpl; [lia|lia|].
  rewrite IH. lia.
Qed.

Lemma qty_by_year_sorted (df : Table) :
  StronglySorted Z.lt (map fst (qty_by_year df)).
Proof.
  induction df as [|r df IH]; simpl; [constructor|].
  destruct (Year r); [now apply add_to_group_sorted|exact IH].
Qed.

Lemma year_total_cons (y : Z) (r : Row) (df : Table) :
  year_total y (r :: df)
  = (if in_year y r then quantity r else 0) + year_total y df.
Proof.
  unfold year_total. cbn [filter].
  destruct (in_year y r); cbn [map fold_right]; lia.
Qed.

Lemma year_total_none (y : Z) (df : Table) :
  existsb (in_year y) df = false -> year_total y df = 0.
Proof.
  induction df as [|r df IH]; [reflexivity|].
  cbn [existsb]. intros H. apply orb_false_iff in H. destruct H as [Hr Hdf].
  rewrite year_total_cons, Hr, (IH Hdf). reflexivity.
Qed.

(** X25.  The yearly totals of the analytics tab: one entry per year
    that occurs in the table, by increasing year; the entry of a year is
    the sum of the quantities of the rows of that year, a missing
    quantity counting for 0; rows without year are left out, so that
    the entries add up to the quantities of the rows that have a
    year. *)
Theorem qty_by_year_totals (df : Table) :
  StronglySorted Z.lt (map fst (qty_by_year df))
  /\ (forall y,
        total_in y (qty_by_year df)
        = if existsb (in_year y) df then Some (year_total y df) else None)
  /\ total_of_groups (qty_by_year df)
     = fold_right Z.add 0 (map quantity (filter has_year df)).
Proof.
  split; [apply qty_by_year_sorted|]. split.
  - intros y. induction df as [|r df IH]; [reflexivity|].
    cbn [qty_by_year existsb]. rewrite year_total_cons.
    unfold in_year at 1 3. destruct (Year r) as [yr|].
    + rewrite (total_in_add y yr (quantity r) _ (qty_by_year_sorted df)), IH.
      destruct (Z.eqb_spec yr y); cbn [orb].
      * destruct (existsb (in_year y) df) eqn:Hex; f_equal; [lia|].
        rewrite (year_total_none y df Hex). lia.
      * destruct (existsb (in_year y) df); [|reflexivity]. f_equal.
    + cbn [orb]. rewrite IH.
      destruct (existsb (in_year y) df); [|reflexivity]. f_equal.
  - induction df as [|r df IH]; [reflexivity|].
    cbn [qty_by_year filter]. unfold has_year at 1.
    destruct (Year r); [|exact IH].
    rewrite total_of_groups_add, IH. reflexivity.
Qed.

(* ------------------------------------------------------------------ *)
(** ** Blank values *)

Lemma lstrip_blank_iff (txt : string) :
  PyStr.lstrip txt = "" <-> all_space txt = true.
Proof.
  unfold all_space. induction txt as [|ch txt IH]; simpl; [tauto|].
  destruct (PyStr.isspace ch); simpl; [exact IH|].
  split; discriminate.
Qed.

Lemma rstrip_blank_iff (txt : string) :
  PyStr.rstrip txt = "" <-> all_space txt = true.
Proof.
  unfold all_space. induction txt as [|ch txt IH]; simpl; [tauto|].
  destruct (PyStr.isspace ch); simpl.
  - destruct (String.eqb_spec (PyStr.rstrip txt) "") as [E | N].
    + split; [intros _; now apply IH|reflexivity].
    + split; [discriminate|]. intros H. apply IH in H. contradiction.
  - split; discriminate.
Qed.

Lemma strip_blank_iff (txt : string) :
  PyStr.strip txt = "" <-> all_space txt = true.
Proof.
  unfold PyStr.strip. rewrite rstrip_blank_iff, <- !lstrip_blank_iff.
  now rewrite lstrip_idempotent.
Qed.



(* ------------------------------------------------------------------ *)
(** ** The registry of a client *)

(** X27.  The rows offered for editing to a user who is not an admin:
    whatever the filters select, each of them is a row of the table
    whose client is the client of the user. *)
Theorem client_registry_is_own
  (multiselect : Column -> list Key -> list Key) (df : Table) (user : User)
  (r : Row) :
  In r (apply_filters multiselect (client_rows df user) user) ->
  In r df /\ client_matches r user = true
  /\ exists cl, client user = Some cl /\ Client r = Str cl.
Proof.
  intros H.
  destruct (fold_filter_column_keeps multiselect (filter_columns user)
              (client_rows df user)) as (keep & Hkeep).
  unfold apply_filters in H. rewrite Hkeep in H.
  apply filter_In in H. destruct H as [H _].
  unfold client_rows in H. apply filter_In in H. destruct H as [Hin Hc].
  split; [exact Hin|]. split; [exact Hc|].
  unfold client_matches in Hc.
  destruct (Client r) as [|a]; [discriminate|].
  destruct (client user) as [b|]; [|discriminate].
  apply String.eqb_eq in Hc. subst. exists b. auto.
Qed.

Lemma client_registry_is_own_witness :
  client_matches row_no_expiry client_user = true.
Proof.
  apply (client_registry_is_own select_all
           [row_no_expiry;
            mkRow (Str "Z") (Str "Clinic B") (Str "Pump X") (Some 1) (Str "S")
                  (Some 2024) (Str "In use") NA NaT NA (Str "")]
           client_user row_no_expiry).
  left. reflexivity.
Defined.

(* ------------------------------------------------------------------ *)
(** ** The expiry first shown by the add form *)

(** X28.  The expiry that the add form shows for a new id is the date
    part of what loading would derive from that id for a row without
    stored expiry; when nothing can be derived from the id it is today
    plus 4 years. *)
Theorem add_form_default_matches_load
  (parse_datetime : bool -> string -> option Timestamp)
  (new_id : string) (today : Date) (row : Row) :
  ID row = Str new_id ->
  to_datetime parse_datetime false (Expiry row) = NaT ->
  (forall E, compute_expiry parse_datetime row = Ts E ->
             default_expiry parse_datetime new_id today = ts_date E)
  /\ (compute_expiry parse_datetime row = NaT ->
      default_expiry parse_datetime new_id today
      = mkDate (year today + 4) (month today)
               (Z.min (monthrange (year today + 4) (month today)) (day today))).
Proof.
  intros Hid Hexp. unfold compute_expiry, default_expiry.
  rewrite Hexp, Hid. cbn [notna].
  assert (Hsame : (if negb (is_empty (Str new_id))
                   then parse_date_from_id parse_datetime (Str new_id)
                   else NaT)
                  = parse_date_from_id parse_datetime (Str new_id)).
  { destruct (is_empty (Str new_id)) eqn:He; [|reflexivity].
    unfold parse_date_from_id. now rewrite He. }
  rewrite Hsame.
  destruct (parse_date_from_id_cases parse_datetime (Str new_id))
    as [H | [t H]]; rewrite H; cbn [notna add_expiry_years].
  - split; [discriminate|]. intros _. reflexivity.
  - split; [|discriminate]. intros E HE. inversion HE. reflexivity.
Qed.

Lemma add_form_default_matches_load_witness :
  default_expiry slash_date "PX-01 - 05/01/2020" (mkDate 2026 11 4)
  = mkDate 2024 1 5
  /\ default_expiry slash_date "PX-60" (mkDate 2026 11 4) = mkDate 2030 11 4.
Proof.
  split.
  - apply (proj1 (add_form_default_matches_load slash_date "PX-01 - 05/01/2020"
                    (mkDate 2026 11 4) row_px01 eq_refl eq_refl)
             (midnight 2024 1 5)).
    reflexivity.
  - apply (proj2 (add_form_default_matches_load slash_date "PX-60"
                    (mkDate 2026 11 4) (set_ID (Str "PX-60") blank_row)
                    eq_refl eq_refl)).
    reflexivity.
Defined.
